(** * Git Sync plugin: the synchronisation engine of [main.ts]

    A shallow embedding of the second (stash / fetch / rebase) revision of
    the plugin class [GitSyncPlugin]: [syncVault], [handleSyncError],
    [initializeGit], [saveSettings], [updateStatusBar], [startAutoSync] and
    [stopAutoSync].

    The plugin is a stateful object that talks to three collaborators: the
    simple-git client (every call may reject), the Obsidian host (notices,
    status bar, console, the persisted data record, interval timers) and the
    clock.  The embedding threads the plugin fields and the host facilities
    through a small monad whose computations finish the way a JavaScript
    statement does (normally, by [return], or by [throw]) and which records
    every externally visible effect in a trace.  Each trace entry carries the
    value the flag [isSyncing] had when the effect happened.

    The texts the plugin shows in notices and writes to the console are a
    finite set of templates.  The trace records which template was used, with
    its parameters; [Notification.text] and [Diagnostic.text] give the text
    itself. *)

From Stdlib Require Import String Ascii ZArith List Bool Lia.
From Stdlib Require Import DecimalString.
Import ListNotations.
Open Scope string_scope.
Open Scope Z_scope.

(** ** JavaScript strings *)

Module Js.

(** [s.includes(sub)] *)
Fixpoint includes (sub s : string) : bool :=
  String.prefix sub s ||
  match s with
  | EmptyString => false
  | String _ rest => includes sub rest
  end.

Definition lowerAscii (c : ascii) : ascii :=
  let n := nat_of_ascii c in
  if (Nat.leb 65 n && Nat.leb n 90)%bool then ascii_of_nat (n + 32) else c.

(** [s.toLowerCase()], on the ASCII letters. *)
Fixpoint toLowerCase (s : string) : string :=
  match s with
  | EmptyString => EmptyString
  | String c rest => String (lowerAscii c) (toLowerCase rest)
  end.

Fixpoint drop (n : nat) (s : string) : string :=
  match n, s with
  | O, _ => s
  | S _, EmptyString => EmptyString
  | S n', String _ rest => drop n' rest
  end.

(** [s.replace(pat, rep)] for a string pattern: the first occurrence only. *)
Fixpoint replace (pat rep s : string) : string :=
  if String.prefix pat s then rep ++ drop (String.length pat) s
  else match s with
       | EmptyString => EmptyString
       | String c rest => String c (replace pat rep rest)
       end.

(** Truthiness of a string: only the empty string is falsy. *)
Definition truthy (s : string) : bool :=
  match s with EmptyString => false | String _ _ => true end.

(** Truthiness of [string | null | undefined]. *)
Definition truthyOpt (o : option string) : bool :=
  match o with Some s => truthy s | None => false end.

(** A value interpolated in a template literal. *)
Definition show (o : option string) : string :=
  match o with Some s => s | None => "null" end.

Definition showZ (z : Z) : string := NilZero.string_of_int (Z.to_int z).

End Js.

Arguments Js.includes : simpl never.
Arguments Js.toLowerCase : simpl never.
Arguments Js.replace : simpl never.
Arguments Js.showZ : simpl never.
Arguments String.append : simpl never.
Arguments String.substring : simpl never.

(** ** Data *)

(** [interface GitSyncSettings] *)
Inductive AuthMethod := ssh | https.

Record GitSyncSettings := {
  commitInterval : Z;
  repoUrl : string;
  authMethod : AuthMethod;
  autoSync : bool;
  lastSync : string;
  commitMessage : string;
  logMaxEntries : Z
}.

Definition DEFAULT_SETTINGS : GitSyncSettings := {|
  commitInterval := 15;
  repoUrl := "";
  authMethod := ssh;
  autoSync := true;
  lastSync := "Never";
  commitMessage := "Vault auto-sync: {{date}}";
  logMaxEntries := 50
|}.

Definition with_lastSync (v : string) (s : GitSyncSettings) : GitSyncSettings :=
  {| commitInterval := commitInterval s; repoUrl := repoUrl s;
     authMethod := authMethod s; autoSync := autoSync s; lastSync := v;
     commitMessage := commitMessage s; logMaxEntries := logMaxEntries s |}.

(** simple-git's [StatusResult], the fields the plugin reads. *)
Record FileStatusResult := {
  path : string;
  index : string;
  working_dir : string
}.

Record StatusResult := {
  files : list FileStatusResult;
  current : option string;
  tracking : option string;
  ahead : Z;
  behind : Z
}.

(** A thrown value, as far as the plugin inspects it: [instanceof Error],
    [.message], [.git] (simple-git's response error) and [String(error)]. *)
Record GitResponse := {
  failed : bool;
  git_message : option string
}.

Record JsError := {
  instanceofError : bool;
  err_message : option string;
  err_git : option GitResponse;
  toString : string
}.

(** [new Error(m)] *)
Definition new_Error (m : string) : JsError := {|
  instanceofError := true;
  err_message := Some m;
  err_git := None;
  toString := match m with EmptyString => "Error" | _ => "Error: " ++ m end
|}.

(** What reading [.includes] of an undefined [message] throws. *)
Definition TypeError_includes : JsError := {|
  instanceofError := true;
  err_message := Some "Cannot read properties of undefined (reading 'includes')";
  err_git := None;
  toString := "TypeError: Cannot read properties of undefined (reading 'includes')"
|}.

(** ** The git client *)

(** The three places where [syncVault] asks for [git.status()]. *)
Inductive StatusPoint := Initial | AfterFetch | Final.

(** The calls [syncVault] makes on [this.git]:
    [status()], [stash(["push","-u","-m","GitSync_Autostash"])], [fetch()],
    [rebase([trackingBranch])], [rebase(["--abort"])], [stash(["pop"])],
    [add("./*")], [commit(message)], [push()]. *)
Inductive GitOp :=
| Status (p : StatusPoint)
| StashPush
| Fetch
| Rebase (upstream : string)
| RebaseAbort
| StashPop
| Add
| Commit (msg : string)
| Push.

(** How an awaited promise settles. *)
Inductive Settled (A : Type) :=
| Resolved (a : A)
| Rejected (e : JsError).
Arguments Resolved {A} a.
Arguments Rejected {A} e.

Inductive GitValue :=
| VVoid
| VText (s : string)
| VStatus (s : StatusResult).

(** One run of [syncVault] performs each call at most once, so the behaviour
    of the client during a run is given by how each call settles. *)
Record GitClient := {
  onInitialStatus : Settled StatusResult;
  onStashPush : Settled string;
  onFetch : Settled unit;
  onStatusAfterFetch : Settled StatusResult;
  onRebase : Settled unit;
  onRebaseAbort : Settled unit;
  onStashPop : Settled unit;
  onAdd : Settled unit;
  onFinalStatus : Settled StatusResult;
  onCommit : Settled unit;
  onPush : Settled unit
}.

(** The surroundings of a run: the vault adapter ([Some basePath] when it is
    a [FileSystemAdapter]), the git client, and what
    [moment().format("YYYY-MM-DD HH:mm:ss")] yields at the commit and when
    [lastSync] is written. *)
Record Env := {
  basePath : option string;
  client : GitClient;
  momentAtCommit : string;
  momentAtSync : string
}.

(** ** Texts *)

(** The arguments of [new Notice(...)]. *)
Module Notification.

Inductive t :=
| AlreadyInProgress
| GitNotInitialized
| RepoUrlNotConfigured
| NotLocalVault
| StashFailed
| NotOnBranch
| BehindNoUpstream (currentBranch : option string) (behind : Z)
| RebaseConflictDetected
| RebaseAborted
| RebaseAbortFailed
| RebaseFailed
| AheadNoUpstream (currentBranch : option string) (ahead : Z)
| StashPopConflict
| StashPopFailed
| Synced
| PushSkipped (currentBranch : option string)
| UpToDate
| StashedRecoverManually
| ConflictOccurred
| AuthenticationFailed
| NotAGitRepository
| CannotConnect
| RebaseConflictReport
| StashConflictReport
| ErrorReport (shown : string)
| UnknownErrorOccurred.

Definition text (n : t) : string :=
  match n with
  | AlreadyInProgress => "Git Sync: Sync already in progress."
  | GitNotInitialized =>
      "Git Sync: Git is not initialized. Check plugin settings and console."
  | RepoUrlNotConfigured => "Git Sync: Repository URL is not configured in settings."
  | NotLocalVault => "Git Sync: Vault must be on a local filesystem for Git Sync to work."
  | StashFailed =>
      "Git Sync: Failed to stash local changes. Sync aborted to prevent data loss."
  | NotOnBranch => "Git Sync: Not on a branch. Please checkout a branch to sync."
  | BehindNoUpstream currentBranch behind =>
      "Git Sync: Branch '" ++ Js.show currentBranch ++ "' is " ++ Js.showZ behind
      ++ " commits behind, but not tracking a remote branch. Please set upstream. Rebase skipped."
  | RebaseConflictDetected =>
      "Git Sync: Merge conflict detected during rebase. Please resolve manually."
  | RebaseAborted => "Git Sync: Rebase aborted. Please resolve conflicts and sync manually."
  | RebaseAbortFailed =>
      "Git Sync: Critical! Could not abort rebase. Manual Git intervention required."
  | RebaseFailed => "Git Sync: Rebase failed. Check Git status or console for details."
  | AheadNoUpstream currentBranch ahead =>
      "Git Sync: Branch '" ++ Js.show currentBranch ++ "' is " ++ Js.showZ ahead
      ++ " commits ahead, but not tracking a remote branch. Commit will be local only unless upstream is set."
  | StashPopConflict =>
      "Git Sync: Conflict after sync when applying stashed changes. Please resolve conflicts in your Git client. Your stash is likely still available."
  | StashPopFailed =>
      "Git Sync: Error applying stashed changes. Check Git status. Your stash may still be available."
  | Synced => "Git Sync: Vault successfully synced with remote."
  | PushSkipped currentBranch =>
      "Git Sync: Changes committed locally. Push skipped as branch '"
      ++ Js.show currentBranch ++ "' is not tracking a remote."
  | UpToDate => "Git Sync: Vault is up-to-date. No local changes to commit."
  | StashedRecoverManually =>
      "Git Sync: Sync failed. Local changes were stashed. You may need to `git stash pop` manually or check `git stash list`."
  | ConflictOccurred =>
      "Git Sync: A conflict occurred. Please resolve it manually in your Git client."
  | AuthenticationFailed =>
      "Git Sync: Authentication failed. Check SSH keys or HTTPS credentials."
  | NotAGitRepository =>
      "Git Sync: Vault is not a Git repository or .git folder is missing."
  | CannotConnect =>
      "Git Sync: Cannot connect to remote. Check repository URL and network."
  | RebaseConflictReport =>
      "Git Sync: Rebase conflict. Manual resolution needed. Rebase was aborted."
  | StashConflictReport =>
      "Git Sync: Stash conflict. Manual resolution needed. Stash may still be present."
  | ErrorReport shown => "Git Sync: Error - " ++ shown ++ "..."
  | UnknownErrorOccurred => "Git Sync: An unknown error occurred."
  end.

End Notification.

(** The first arguments of [console.log], [console.warn] and
    [console.error]. *)
Module Diagnostic.

Inductive t :=
| InitializingGit (basePath : string)
| VaultNotLocal
| SkippingAlreadyInProgress
| StartingSync
| Stashing
| StashSuccessful
| NothingStashed
| FailedToStash
| Fetching
| FetchSuccessful
| BehindNoTracking (currentBranch : option string)
| AttemptingRebase (currentBranch : option string) (behind : Z)
    (trackingBranch : option string)
| RebaseSuccessful
| ConflictAbortingRebase
| CouldNotAbortRebase
| RebaseFailed
| ApplyingStash
| StashPopSuccessful
| ConflictPoppingStash
| ErrorPoppingStash
| AddingFiles
| Committing (changes : nat)
| CommitSuccessful
| Pushing
| PushSuccessful
| CommitNotPushed (currentBranch : option string)
| NoChangesToCommit
| SynchronizationError
| AttemptFinished
| DetailedError
| AutoSyncNoGit
| AutoSyncBadInterval
| StartingAutoSync (minutes : Z)
| AutoSyncStopped.

Definition text (d : t) : string :=
  match d with
  | InitializingGit basePath => "Git Sync: Initializing Git in " ++ basePath
  | VaultNotLocal => "Git Sync: Vault is not on a local filesystem. Git Sync disabled."
  | SkippingAlreadyInProgress => "Git Sync: Sync already in progress, skipping."
  | StartingSync => "Git Sync: Starting vault synchronization."
  | Stashing => "Git Sync: Local changes detected. Stashing..."
  | StashSuccessful => "Git Sync: Stash successful."
  | NothingStashed => "Git Sync: No actual changes were stashed by git stash."
  | FailedToStash => "Git Sync: Failed to stash changes."
  | Fetching => "Git Sync: Fetching from remote..."
  | FetchSuccessful => "Git Sync: Fetch successful."
  | BehindNoTracking currentBranch =>
      "Git Sync: Branch '" ++ Js.show currentBranch
      ++ "' is behind but has no tracking branch. Rebase skipped."
  | AttemptingRebase currentBranch behind trackingBranch =>
      "Git Sync: Local branch '" ++ Js.show currentBranch ++ "' is "
      ++ Js.showZ behind ++ " commits behind '" ++ Js.show trackingBranch
      ++ "'. Attempting rebase..."
  | RebaseSuccessful => "Git Sync: Rebase successful."
  | ConflictAbortingRebase =>
      "Git Sync: Conflict detected during rebase. Attempting to abort rebase."
  | CouldNotAbortRebase => "Git Sync: Could not abort rebase."
  | RebaseFailed => "Git Sync: Rebase failed."
  | ApplyingStash => "Git Sync: Applying stashed changes..."
  | StashPopSuccessful => "Git Sync: Stash pop successful."
  | ConflictPoppingStash =>
      "Git Sync: Conflict while popping stash. Please resolve conflicts manually."
  | ErrorPoppingStash => "Git Sync: Error popping stash."
  | AddingFiles => "Git Sync: Adding all files to staging area..."
  | Committing changes =>
      "Git Sync: Committing " ++ Js.showZ (Z.of_nat changes) ++ " changes."
  | CommitSuccessful => "Git Sync: Commit successful."
  | Pushing => "Git Sync: Pushing to remote..."
  | PushSuccessful => "Git Sync: Push successful."
  | CommitNotPushed currentBranch =>
      "Git Sync: Commit made locally, but branch '" ++ Js.show currentBranch
      ++ "' is not tracking a remote. Push skipped."
  | NoChangesToCommit => "Git Sync: No local changes to commit. Vault is up-to-date."
  | SynchronizationError => "Git Sync: Synchronization error occurred."
  | AttemptFinished => "Git Sync: Synchronization attempt finished."
  | DetailedError => "Git Sync Detailed Error:"
  | AutoSyncNoGit => "Git Sync: Auto Sync cannot start, Git not initialized."
  | AutoSyncBadInterval =>
      "Git Sync: Auto Sync interval is zero or negative, not starting."
  | StartingAutoSync minutes =>
      "Git Sync: Starting auto-sync every " ++ Js.showZ minutes ++ " minutes."
  | AutoSyncStopped => "Git Sync: Auto-sync stopped."
  end.

End Diagnostic.

(** ** Plugin state and effects *)

Inductive Level := Log | Warn | Error.

Inductive Event :=
| EGit (op : GitOp) (r : Settled GitValue)
| ENotice (n : Notification.t) (timeout : option Z)
| EStatusBar (text : string)  (* a call of [updateStatusBar] *)
| EConsole (l : Level) (d : Diagnostic.t) (arg : option JsError)
| ESaveData (s : GitSyncSettings)
| ESettingsChanged
| ESetInterval (id : positive) (millis : Z)
| EClearInterval (id : positive).

(** The fields of [GitSyncPlugin], the local [stashed] of the running
    [syncVault], and the host's persisted record and interval timers. *)
Record State := {
  settings : GitSyncSettings;
  git : bool;
  statusBarItemEl : option string;
  syncInterval : option positive;
  isSyncing : bool;
  onExternalSettingsChange : bool;
  stashed : bool;
  savedData : GitSyncSettings;
  timers : list (positive * Z);
  nextTimer : positive
}.

Definition set_settings v (s : State) : State :=
  {| settings := v; git := git s; statusBarItemEl := statusBarItemEl s;
     syncInterval := syncInterval s; isSyncing := isSyncing s;
     onExternalSettingsChange := onExternalSettingsChange s;
     stashed := stashed s; savedData := savedData s; timers := timers s;
     nextTimer := nextTimer s |}.

Definition set_git v (s : State) : State :=
  {| settings := settings s; git := v; statusBarItemEl := statusBarItemEl s;
     syncInterval := syncInterval s; isSyncing := isSyncing s;
     onExternalSettingsChange := onExternalSettingsChange s;
     stashed := stashed s; savedData := savedData s; timers := timers s;
     nextTimer := nextTimer s |}.

Definition set_statusBarItemEl v (s : State) : State :=
  {| settings := settings s; git := git s; statusBarItemEl := v;
     syncInterval := syncInterval s; isSyncing := isSyncing s;
     onExternalSettingsChange := onExternalSettingsChange s;
     stashed := stashed s; savedData := savedData s; timers := timers s;
     nextTimer := nextTimer s |}.

Definition set_syncInterval v (s : State) : State :=
  {| settings := settings s; git := git s; statusBarItemEl := statusBarItemEl s;
     syncInterval := v; isSyncing := isSyncing s;
     onExternalSettingsChange := onExternalSettingsChange s;
     stashed := stashed s; savedData := savedData s; timers := timers s;
     nextTimer := nextTimer s |}.

Definition set_isSyncing v (s : State) : State :=
  {| settings := settings s; git := git s; statusBarItemEl := statusBarItemEl s;
     syncInterval := syncInterval s; isSyncing := v;
     onExternalSettingsChange := onExternalSettingsChange s;
     stashed := stashed s; savedData := savedData s; timers := timers s;
     nextTimer := nextTimer s |}.

Definition set_stashed v (s : State) : State :=
  {| settings := settings s; git := git s; statusBarItemEl := statusBarItemEl s;
     syncInterval := syncInterval s; isSyncing := isSyncing s;
     onExternalSettingsChange := onExternalSettingsChange s;
     stashed := v; savedData := savedData s; timers := timers s;
     nextTimer := nextTimer s |}.

Definition set_savedData v (s : State) : State :=
  {| settings := settings s; git := git s; statusBarItemEl := statusBarItemEl s;
     syncInterval := syncInterval s; isSyncing := isSyncing s;
     onExternalSettingsChange := onExternalSettingsChange s;
     stashed := stashed s; savedData := v; timers := timers s;
     nextTimer := nextTimer s |}.

Definition set_timers v n (s : State) : State :=
  {| settings := settings s; git := git s; statusBarItemEl := statusBarItemEl s;
     syncInterval := syncInterval s; isSyncing := isSyncing s;
     onExternalSettingsChange := onExternalSettingsChange s;
     stashed := stashed s; savedData := savedData s; timers := v;
     nextTimer := n |}.

(** ** The monad *)

(** How a statement completes. *)
Inductive Completion (A : Type) :=
| Normal (a : A)
| Return
| Throw (e : JsError).
Arguments Normal {A} a.
Arguments Return {A}.
Arguments Throw {A} e.

Definition Trace := list (bool * Event).

Record Outcome (A : Type) := {
  completion : Completion A;
  final : State;
  events : Trace
}.
Arguments completion {A} o.
Arguments final {A} o.
Arguments events {A} o.

Definition M (A : Type) := State -> Outcome A.

Definition ret {A} (a : A) : M A :=
  fun s => {| completion := Normal a; final := s; events := [] |}.

(** The effects [t] happened before those of [o]. *)
Definition after {A} (t : Trace) (o : Outcome A) : Outcome A :=
  match o with
  | {| completion := c; final := s; events := t' |} =>
      {| completion := c; final := s; events := (t ++ t')%list |}
  end.

Definition bind {A B} (m : M A) (k : A -> M B) : M B :=
  fun s =>
    match m s with
    | {| completion := Normal a; final := s1; events := t1 |} => after t1 (k a s1)
    | {| completion := Return; final := s1; events := t1 |} =>
        {| completion := Return; final := s1; events := t1 |}
    | {| completion := Throw e; final := s1; events := t1 |} =>
        {| completion := Throw e; final := s1; events := t1 |}
    end.

Notation "x <- m ;; k" := (bind m (fun x => k))
  (at level 61, m at next level, right associativity).
Notation "m ;; k" := (bind m (fun _ => k))
  (at level 61, right associativity).

Definition throw {A} (e : JsError) : M A :=
  fun s => {| completion := Throw e; final := s; events := [] |}.

Definition return_ {A} : M A :=
  fun s => {| completion := Return; final := s; events := [] |}.

Definition get {A} (f : State -> A) : M A :=
  fun s => {| completion := Normal (f s); final := s; events := [] |}.

Definition modify (f : State -> State) : M unit :=
  fun s => {| completion := Normal tt; final := f s; events := [] |}.

Definition emit (e : Event) : M unit :=
  fun s => {| completion := Normal tt; final := s; events := [(isSyncing s, e)] |}.

(** [try { body } catch (e) { handler e }] *)
Definition try_catch {A} (body : M A) (handler : JsError -> M A) : M A :=
  fun s =>
    match body s with
    | {| completion := Throw e; final := s1; events := t1 |} => after t1 (handler e s1)
    | r => r
    end.

(** [try { body } finally { fin }]: [fin] always runs; its own abrupt
    completion overrides the body's. *)
Definition try_finally {A} (body : M A) (fin : M unit) : M A :=
  fun s =>
    match body s with
    | {| completion := c; final := s1; events := t1 |} =>
        match fin s1 with
        | {| completion := Normal _; final := s2; events := t2 |} =>
            {| completion := c; final := s2; events := (t1 ++ t2)%list |}
        | {| completion := Return; final := s2; events := t2 |} =>
            {| completion := Return; final := s2; events := (t1 ++ t2)%list |}
        | {| completion := Throw e; final := s2; events := t2 |} =>
            {| completion := Throw e; final := s2; events := (t1 ++ t2)%list |}
        end
    end.

(** ** Host facilities *)

Definition Notice (n : Notification.t) : M unit := emit (ENotice n None).
Definition NoticeFor (n : Notification.t) (ms : Z) : M unit := emit (ENotice n (Some ms)).
Definition console (l : Level) (d : Diagnostic.t) : M unit := emit (EConsole l d None).
Definition consoleWith (l : Level) (d : Diagnostic.t) (e : JsError) : M unit :=
  emit (EConsole l d (Some e)).

(** Awaiting a call on [this.git]. *)
Definition await {A} (op : GitOp) (inj : A -> GitValue) (r : Settled A) : M A :=
  match r with
  | Resolved a => emit (EGit op (Resolved (inj a))) ;; ret a
  | Rejected e => emit (EGit op (Rejected e)) ;; throw e
  end.

Definition awaitVoid (op : GitOp) (r : Settled unit) : M unit :=
  await op (fun _ => VVoid) r.

(** [window.setInterval] / [window.clearInterval] *)
Definition setInterval (millis : Z) : M positive :=
  id <- get nextTimer ;;
  ts <- get timers ;;
  modify (set_timers ((id, millis) :: ts) (Pos.succ id)) ;;
  emit (ESetInterval id millis) ;;
  ret id.

Definition clearInterval (id : positive) : M unit :=
  ts <- get timers ;;
  n <- get nextTimer ;;
  modify (set_timers (filter (fun t => negb (Pos.eqb (fst t) id)) ts) n) ;;
  emit (EClearInterval id).

(** ** The plugin's methods *)

(** [HTMLElement.setText] on the status bar item, when the item exists. *)
Definition setText (text : string) (el : option string) : option string :=
  match el with
  | Some _ => Some text
  | None => None
  end.

(** [updateStatusBar(text)] *)
Definition updateStatusBar (text : string) : M unit :=
  el <- get statusBarItemEl ;;
  modify (set_statusBarItemEl (setText ("Git Sync: " ++ text) el)) ;;
  emit (EStatusBar text).

Import Notification Diagnostic.

(** [initializeGit()].  The asynchronous [git.version()] probe, which may
    null [this.git] at some later turn, is outside a run and not modelled. *)
Definition initializeGit (env : Env) : M unit :=
  match basePath env with
  | Some base =>
      console Log (InitializingGit base) ;;
      modify (set_git true)
  | None =>
      console Error VaultNotLocal ;;
      Notice NotLocalVault ;;
      updateStatusBar "Error: Not local vault" ;;
      modify (set_git false)
  end.

(** [saveSettings()]: [saveData(this.settings)], then the settings tab's
    callback when one is registered. *)
Definition saveSettings : M unit :=
  cur <- get settings ;;
  modify (set_savedData cur) ;;
  emit (ESaveData cur) ;;
  hook <- get onExternalSettingsChange ;;
  if hook then emit ESettingsChanged else ret tt.

(** [error.git && error.git.failed && error.git.message &&
     error.git.message.includes("conflict")] *)
Definition gitConflict (error : JsError) : bool :=
  match err_git error with
  | Some g =>
      failed g &&
      match git_message g with
      | Some m => Js.truthy m && Js.includes "conflict" m
      | None => false
      end
  | None => false
  end.

(** [error instanceof Error && error.message ? error.message : String(error)] *)
Definition messageOf (error : JsError) : string :=
  match err_message error with
  | Some m => if instanceofError error && Js.truthy m then m else toString error
  | None => toString error
  end.

(** [handleSyncError(error)] *)
Definition handleSyncError (error : JsError) : M unit :=
  let message := messageOf error in
  errorMessage <-
    (if Js.truthy message then
       if Js.includes "CONFLICT" message || Js.includes "conflict" message
          || gitConflict error
       then
         updateStatusBar "Conflict!" ;;
         ret ConflictOccurred
       else if Js.includes "Host key verification failed" message
               || Js.includes "Permission denied" message
       then
         updateStatusBar "Auth Error" ;;
         ret AuthenticationFailed
       else if Js.includes "not a git repository" message
       then
         updateStatusBar "Not a repo" ;;
         ret NotAGitRepository
       else if Js.includes "Could not read from remote repository" message
       then
         updateStatusBar "Remote Error" ;;
         ret CannotConnect
       else if Js.includes "Merge conflict during rebase, operation aborted" message
       then
         updateStatusBar "Rebase Conflict!" ;;
         ret RebaseConflictReport
       else if Js.includes "Conflict applying stashed changes" message
       then
         updateStatusBar "Stash Conflict!" ;;
         ret StashConflictReport
       else
         updateStatusBar "Sync Error" ;;
         ret (ErrorReport (String.substring 0 100 message))
     else ret UnknownErrorOccurred) ;;
  NoticeFor errorMessage 10000 ;;
  consoleWith Error DetailedError error.

(** [files.some(file => file.working_dir !== " " ||
                        (file.index !== " " && file.index !== "?"))] *)
Definition hasLocalChanges (st : StatusResult) : bool :=
  existsb (fun file =>
             negb (working_dir file =? " ")%string
             || (negb (index file =? " ")%string && negb (index file =? "?")%string))
          (files st).

(** [files.filter(file => file.index !== " " && file.index !== "?")] *)
Definition filesToCommit (st : StatusResult) : list FileStatusResult :=
  filter (fun file =>
            negb (index file =? " ")%string && negb (index file =? "?")%string)
         (files st).

(** [stashResult &&
     !stashResult.toLowerCase().includes("no local changes to save")] *)
Definition stashCreated (stashResult : string) : bool :=
  Js.truthy stashResult
  && negb (Js.includes "no local changes to save" (Js.toLowerCase stashResult)).

(** [error.message && error.message.includes(sub)] *)
Definition messageIncludes (sub : string) (error : JsError) : bool :=
  match err_message error with
  | Some m => Js.truthy m && Js.includes sub m
  | None => false
  end.

Arguments hasLocalChanges : simpl never.
Arguments filesToCommit : simpl never.

(** The second half of the [try] block of [syncVault], from [if (stashed)]
    on: the stash is popped, everything is staged, and what is staged is
    committed and pushed.  [currentBranch] is the branch name read from the
    status taken after the fetch. *)
Definition syncVault_commit (env : Env) (currentBranch : option string) : M unit :=
  let git := client env in
  isStashed <- get stashed ;;
  (if isStashed then
     console Log ApplyingStash ;;
     try_catch
       (awaitVoid StashPop (onStashPop git) ;;
        console Log StashPopSuccessful)
       (fun stashPopError =>
          if messageIncludes "conflict" stashPopError then
            consoleWith Error ConflictPoppingStash stashPopError ;;
            Notice StashPopConflict ;;
            updateStatusBar "Stash Conflict!" ;;
            throw (new_Error "Conflict applying stashed changes. Manual resolution needed.")
          else
            consoleWith Error ErrorPoppingStash stashPopError ;;
            Notice StashPopFailed ;;
            throw stashPopError)
   else ret tt) ;;

  console Log AddingFiles ;;
  awaitVoid Add (onAdd git) ;;

  finalStatus <- await (Status Final) VStatus (onFinalStatus git) ;;
  let toCommit := filesToCommit finalStatus in

  if (0 <? List.length toCommit)%nat then
    console Log (Committing (List.length toCommit)) ;;
    template <- get (fun s => commitMessage (settings s)) ;;
    let message := Js.replace "{{date}}" (momentAtCommit env) template in
    awaitVoid (Commit message) (onCommit git) ;;
    console Log CommitSuccessful ;;

    console Log Pushing ;;
    if Js.truthyOpt (tracking finalStatus) then
      awaitVoid Push (onPush git) ;;
      console Log PushSuccessful ;;
      cur <- get settings ;;
      modify (set_settings (with_lastSync (momentAtSync env) cur)) ;;
      saveSettings ;;
      updateStatusBar "Synced" ;;
      Notice Synced
    else
      console Warn (CommitNotPushed currentBranch) ;;
      Notice (PushSkipped currentBranch) ;;
      cur <- get settings ;;
      modify (set_settings (with_lastSync (momentAtSync env) cur)) ;;
      saveSettings ;;
      updateStatusBar "Committed (not pushed)"
  else
    cur <- get settings ;;
    modify (set_settings (with_lastSync (momentAtSync env) cur)) ;;
    saveSettings ;;
    updateStatusBar "Up-to-date" ;;
    console Log NoChangesToCommit ;;
    Notice UpToDate.

(** The [try] block of [syncVault]: local changes are stashed, the remote is
    fetched and the branch is rebased; [syncVault_commit] is the rest of the
    block. *)
Definition syncVault_try (env : Env) : M unit :=
  let git := client env in
  initialStatus <- await (Status Initial) VStatus (onInitialStatus git) ;;
  (if hasLocalChanges initialStatus then
     console Log Stashing ;;
     try_catch
       (stashResult <- await StashPush VText (onStashPush git) ;;
        if stashCreated stashResult then
          modify (set_stashed true) ;;
          console Log StashSuccessful
        else
          console Log NothingStashed ;;
          modify (set_stashed false))
       (fun stashError =>
          consoleWith Error FailedToStash stashError ;;
          Notice StashFailed ;;
          updateStatusBar "Stash Error" ;;
          modify (set_isSyncing false) ;;
          return_)
   else ret tt) ;;

  console Log Fetching ;;
  awaitVoid Fetch (onFetch git) ;;
  console Log FetchSuccessful ;;

  statusAfterFetch <- await (Status AfterFetch) VStatus (onStatusAfterFetch git) ;;
  let currentBranch := current statusAfterFetch in
  let trackingBranch := tracking statusAfterFetch in

  (if negb (Js.truthyOpt currentBranch) then
     Notice NotOnBranch ;;
     throw (new_Error "Git Sync: Not on a branch, cannot sync.")
   else ret tt) ;;
  (if negb (Js.truthyOpt trackingBranch) && (behind statusAfterFetch >? 0) then
     Notice (BehindNoUpstream currentBranch (behind statusAfterFetch)) ;;
     console Warn (BehindNoTracking currentBranch)
   else ret tt) ;;

  (if Js.truthyOpt trackingBranch && (behind statusAfterFetch >? 0) then
     console Log (AttemptingRebase currentBranch (behind statusAfterFetch) trackingBranch) ;;
     try_catch
       (awaitVoid (Rebase (Js.show trackingBranch)) (onRebase git) ;;
        console Log RebaseSuccessful)
       (fun rebaseError =>
          if messageIncludes "CONFLICT" rebaseError then
            console Warn ConflictAbortingRebase ;;
            Notice RebaseConflictDetected ;;
            try_catch
              (awaitVoid RebaseAbort (onRebaseAbort git) ;;
               Notice RebaseAborted)
              (fun abortError =>
                 consoleWith Error CouldNotAbortRebase abortError ;;
                 Notice RebaseAbortFailed) ;;
            throw (new_Error "Merge conflict during rebase, operation aborted.")
          else
            consoleWith Error Diagnostic.RebaseFailed rebaseError ;;
            Notice Notification.RebaseFailed ;;
            throw rebaseError)
   else if (ahead statusAfterFetch >? 0) && negb (Js.truthyOpt trackingBranch) then
     Notice (AheadNoUpstream currentBranch (ahead statusAfterFetch))
   else ret tt) ;;

  syncVault_commit env currentBranch.

(** The [catch (error)] block of [syncVault].  [error.message.includes] is
    only evaluated when [stashed] holds, and throws when the thrown value has
    no [message]. *)
Definition syncVault_catch (error : JsError) : M unit :=
  consoleWith Error SynchronizationError error ;;
  isStashed <- get stashed ;;
  (if isStashed then
     match err_message error with
     | Some m =>
         if negb (Js.includes "Conflict applying stashed changes" m
                  || Js.includes "Merge conflict during rebase" m)
         then Notice StashedRecoverManually
         else ret tt
     | None => throw TypeError_includes
     end
   else ret tt) ;;
  handleSyncError error.

(** The [finally] block of [syncVault]. *)
Definition syncVault_finally : M unit :=
  modify (set_isSyncing false) ;;
  console Log AttemptFinished.

(** [syncVault()] *)
Definition syncVault (env : Env) : M unit :=
  busy <- get isSyncing ;;
  if busy then
    Notice AlreadyInProgress ;;
    console Log SkippingAlreadyInProgress ;;
    return_
  else
    ready <- get git ;;
    (if negb ready then
       Notice GitNotInitialized ;;
       updateStatusBar "Error: Git not ready" ;;
       initializeGit env ;;
       ready' <- get git ;;
       if negb ready' then return_ else ret tt
     else ret tt) ;;
    url <- get (fun s => repoUrl (settings s)) ;;
    if negb (Js.truthy url) then
      updateStatusBar "Error: Repo URL not set" ;;
      Notice RepoUrlNotConfigured ;;
      return_
    else
      modify (set_isSyncing true) ;;
      updateStatusBar "Syncing..." ;;
      console Log StartingSync ;;
      modify (set_stashed false) ;;
      try_finally (try_catch (syncVault_try env) syncVault_catch) syncVault_finally.

(** [startAutoSync()] *)
Definition startAutoSync : M unit :=
  handle <- get syncInterval ;;
  match handle with
  | Some _ => return_
  | None =>
      ready <- get git ;;
      if negb ready then
        console Log AutoSyncNoGit ;;
        return_
      else
        minutes <- get (fun s => commitInterval (settings s)) ;;
        let intervalMillis := minutes * 60 * 1000 in
        if intervalMillis <=? 0 then
          console Log AutoSyncBadInterval ;;
          return_
        else
          console Log (StartingAutoSync minutes) ;;
          id <- setInterval intervalMillis ;;
          modify (set_syncInterval (Some id))
  end.

(** [stopAutoSync()] *)
Definition stopAutoSync : M unit :=
  handle <- get syncInterval ;;
  match handle with
  | Some id =>
      clearInterval id ;;
      modify (set_syncInterval None) ;;
      console Log AutoSyncStopped
  | None => ret tt
  end.

(** ** The classifier inside [handleSyncError]

    [handleSyncError] picks one branch of its [if] chain, and that branch
    fixes the status-bar text and the notice.  [classify] is the choice of
    the branch, [report] what is done once it is chosen. *)

Inductive Report :=
| Conflict
| AuthError
| NotARepo
| RemoteError
| RebaseConflict
| StashConflict
| SyncError (shown : string)
| UnknownError.

Definition classify (error : JsError) : Report :=
  let message := messageOf error in
  if Js.truthy message then
    if Js.includes "CONFLICT" message || Js.includes "conflict" message
       || gitConflict error
    then Conflict
    else if Js.includes "Host key verification failed" message
            || Js.includes "Permission denied" message
    then AuthError
    else if Js.includes "not a git repository" message then NotARepo
    else if Js.includes "Could not read from remote repository" message then RemoteError
    else if Js.includes "Merge conflict during rebase, operation aborted" message
    then RebaseConflict
    else if Js.includes "Conflict applying stashed changes" message then StashConflict
    else SyncError (String.substring 0 100 message)
  else UnknownError.

Definition statusOf (r : Report) : option string :=
  match r with
  | Conflict => Some "Conflict!"
  | AuthError => Some "Auth Error"
  | NotARepo => Some "Not a repo"
  | RemoteError => Some "Remote Error"
  | RebaseConflict => Some "Rebase Conflict!"
  | StashConflict => Some "Stash Conflict!"
  | SyncError _ => Some "Sync Error"
  | UnknownError => None
  end.

Definition noticeOf (r : Report) : Notification.t :=
  match r with
  | Conflict => ConflictOccurred
  | AuthError => AuthenticationFailed
  | NotARepo => NotAGitRepository
  | RemoteError => CannotConnect
  | RebaseConflict => RebaseConflictReport
  | StashConflict => StashConflictReport
  | SyncError shown => ErrorReport shown
  | UnknownError => UnknownErrorOccurred
  end.

Definition report (r : Report) (error : JsError) : M unit :=
  match statusOf r with
  | Some text => updateStatusBar text
  | None => ret tt
  end ;;
  NoticeFor (noticeOf r) 10000 ;;
  consoleWith Error DetailedError error.

(** The error kinds of the design's taxonomy, and the kind each branch of
    [handleSyncError] stands for.  No branch stands for
    [ConfigurationError]: a missing client and a missing URL are reported by
    [syncVault] itself, before the [try] block. *)
Inductive ErrorKind :=
| ConflictDuringPullOrRebase
| StashApplyConflict
| AuthenticationFailure
| RepositoryMissing
| RemoteUnreachable
| ConfigurationError
| GenericFailure.

Definition kindOf (r : Report) : ErrorKind :=
  match r with
  | Conflict | RebaseConflict => ConflictDuringPullOrRebase
  | StashConflict => StashApplyConflict
  | AuthError => AuthenticationFailure
  | NotARepo => RepositoryMissing
  | RemoteError => RemoteUnreachable
  | SyncError _ | UnknownError => GenericFailure
  end.

(** ** Observing a run *)

(** The effects of a run, in order, without the flag snapshots. *)
Definition log {A} (o : Outcome A) : list Event := map snd (events o).

(** The calls made on the git client, in order. *)
Fixpoint gitOps (t : list Event) : list GitOp :=
  match t with
  | [] => []
  | EGit op _ :: t' => op :: gitOps t'
  | _ :: t' => gitOps t'
  end.

(** The text of the last [updateStatusBar] call: what the run leaves in the
    status bar as its outcome. *)
Fixpoint lastStatus (t : list Event) : option string :=
  match t with
  | [] => None
  | EStatusBar text :: t' =>
      match lastStatus t' with
      | Some later => Some later
      | None => Some text
      end
  | _ :: t' => lastStatus t'
  end.

Definition isGit (e : Event) : bool :=
  match e with EGit _ _ => true | _ => false end.

Definition isRebase (op : GitOp) : bool :=
  match op with Rebase _ => true | _ => false end.

Definition isRebaseAbort (op : GitOp) : bool :=
  match op with RebaseAbort => true | _ => false end.

Definition isCommit (op : GitOp) : bool :=
  match op with Commit _ => true | _ => false end.

Definition isPush (op : GitOp) : bool :=
  match op with Push => true | _ => false end.

(** The calls of the first half of the [try] block. *)
Definition beforeCommit (op : GitOp) : bool :=
  match op with
  | Status Initial | StashPush | Fetch | Status AfterFetch | Rebase _ | RebaseAbort => true
  | _ => false
  end.

(** The calls of [syncVault_commit]. *)
Definition inCommit (op : GitOp) : bool :=
  match op with
  | StashPop | Add | Status Final | Commit _ | Push => true
  | _ => false
  end.

(** How many of the calls satisfy [p]. *)
Fixpoint count (p : GitOp -> bool) (t : list Event) : nat :=
  match t with
  | [] => O
  | EGit op _ :: t' => if p op then S (count p t') else count p t'
  | _ :: t' => count p t'
  end.

(** The first statement of the [catch] block: [error] reached the
    top-level handler. *)
Definition caught (error : JsError) : Event :=
  EConsole Error SynchronizationError (Some error).

Definition isCaught (e : Event) : bool :=
  match e with
  | EConsole Error SynchronizationError (Some _) => true
  | _ => false
  end.

Definition isSave (e : Event) : bool :=
  match e with ESaveData _ => true | _ => false end.

(** A notice or a status-bar text that speaks of the stash. *)
Definition mentionsStash (e : Event) : bool :=
  match e with
  | ENotice n _ => Js.includes "stash" (Js.toLowerCase (Notification.text n))
  | EStatusBar text => Js.includes "stash" (Js.toLowerCase text)
  | _ => false
  end.

(** The flag discipline of a trace: effects with the flag down, then
    effects with the flag up, then effects with the flag down again, and
    every git call among those with the flag up. *)
Definition SingleFlight (t : Trace) : Prop :=
  exists before during afterwards,
    t = (before ++ during ++ afterwards)%list /\
    Forall (fun o => fst o = false /\ isGit (snd o) = false) before /\
    Forall (fun o => fst o = true) during /\
    Forall (fun o => fst o = false /\ isGit (snd o) = false) afterwards.

Fixpoint released (t : Trace) : bool :=
  match t with
  | [] => true
  | (flag, e) :: t' => negb flag && negb (isGit e) && released t'
  end.

Fixpoint held (t : Trace) : bool :=
  match t with
  | [] => true
  | (true, _) :: t' => held t'
  | (false, e) :: t' => negb (isGit e) && released t'
  end.

Fixpoint idle (t : Trace) : bool :=
  match t with
  | [] => true
  | (false, e) :: t' => negb (isGit e) && idle t'
  | (true, _) :: t' => held t'
  end.

(** ** What each part of the [try] block can emit *)

(** [syncVault_commit] makes only its own git calls and never writes the
    [catch] block's diagnostic. *)
Definition commit_event (e : Event) : bool :=
  match e with
  | EGit op _ => inCommit op
  | _ => negb (isCaught e)
  end.

Definition try_event (e : Event) : bool :=
  match e with
  | EGit op _ => beforeCommit op || inCommit op
  | _ => negb (isCaught e)
  end.

(** The calls up to the status taken after the fetch. *)
Definition beforeRebase (op : GitOp) : bool :=
  match op with
  | Status Initial | StashPush | Fetch | Status AfterFetch => true
  | _ => false
  end.

(** The two errors [syncVault_try] raises itself. *)
Definition notOnBranch : JsError :=
  new_Error "Git Sync: Not on a branch, cannot sync.".

Definition rebaseConflict : JsError :=
  new_Error "Merge conflict during rebase, operation aborted.".

(** The status-bar texts of the three successful ends of a run. *)
Definition successLabels : list (option string) :=
  [Some "Synced"; Some "Committed (not pushed)"; Some "Up-to-date"].

(** The user was told about the stash. *)
Definition StashReported (t : list Event) : Prop :=
  existsb mentionsStash t = true.

(** ** Sample runs *)

Module Sample.

Definition vaultSettings : GitSyncSettings := {|
  commitInterval := 15;
  repoUrl := "git@example.com:notes.git";
  authMethod := ssh;
  autoSync := true;
  lastSync := "Never";
  commitMessage := "Vault auto-sync: {{date}}";
  logMaxEntries := 50
|}.

(** The plugin after [onload], with no timer installed. *)
Definition plugin : State := {|
  settings := vaultSettings;
  git := true;
  statusBarItemEl := Some "Git Sync: Idle";
  syncInterval := None;
  isSyncing := false;
  onExternalSettingsChange := true;
  stashed := false;
  savedData := vaultSettings;
  timers := [];
  nextTimer := 1%positive
|}.

Definition note (staged unstaged : string) : FileStatusResult :=
  {| path := "note.md"; index := staged; working_dir := unstaged |}.

Definition clean : StatusResult :=
  {| files := []; current := Some "main"; tracking := Some "origin/main";
     ahead := 0; behind := 0 |}.

Definition modified : StatusResult :=
  {| files := [note " " "M"]; current := Some "main";
     tracking := Some "origin/main"; ahead := 0; behind := 0 |}.

Definition behindByTwo : StatusResult :=
  {| files := []; current := Some "main"; tracking := Some "origin/main";
     ahead := 0; behind := 2 |}.

Definition staged : StatusResult :=
  {| files := [note "M" " "]; current := Some "main";
     tracking := Some "origin/main"; ahead := 0; behind := 0 |}.

Definition localBranch : StatusResult :=
  {| files := []; current := Some "main"; tracking := None;
     ahead := 0; behind := 0 |}.

Definition stagedLocalBranch : StatusResult :=
  {| files := [note "M" " "]; current := Some "main"; tracking := None;
     ahead := 0; behind := 0 |}.

Definition detached : StatusResult :=
  {| files := []; current := None; tracking := None; ahead := 0; behind := 0 |}.

Definition saved : Settled string :=
  Resolved "Saved working directory and index state On main: GitSync_Autostash".

Definition ok : Settled unit := Resolved tt.

Definition diskFull : JsError := new_Error "fatal: unable to write new index file".

Definition conflict : JsError :=
  new_Error "CONFLICT (content): Merge conflict in note.md".

Definition offline : JsError :=
  new_Error "fatal: Could not read from remote repository.".

Definition around (c : GitClient) : Env := {|
  basePath := Some "/home/me/vault";
  client := c;
  momentAtCommit := "2025-01-01 10:00:00";
  momentAtSync := "2025-01-01 10:00:01"
|}.

(** Nothing to do. *)
Definition quiet : Env :=
  around (Build_GitClient (Resolved clean) saved ok (Resolved clean) ok ok ok ok
            (Resolved clean) ok ok).

(** A local edit, committed and pushed. *)
Definition edited : Env :=
  around (Build_GitClient (Resolved modified) saved ok (Resolved clean) ok ok ok ok
            (Resolved staged) ok ok).

(** The stash push fails. *)
Definition stashFails : Env :=
  around (Build_GitClient (Resolved modified) (Rejected diskFull) ok (Resolved clean)
            ok ok ok ok (Resolved clean) ok ok).

(** The stash push shelves nothing. *)
Definition stashNoop : Env :=
  around (Build_GitClient (Resolved modified) (Resolved "No local changes to save") ok
            (Resolved clean) ok ok ok ok (Resolved clean) ok ok).

(** A local edit is stashed, the branch is two commits behind, and the
    rebase conflicts. *)
Definition rebaseConflicts : Env :=
  around (Build_GitClient (Resolved modified) saved ok (Resolved behindByTwo)
            (Rejected conflict) ok ok ok (Resolved clean) ok ok).

(** No branch is checked out. *)
Definition detachedHead : Env :=
  around (Build_GitClient (Resolved clean) saved ok (Resolved detached) ok ok ok ok
            (Resolved clean) ok ok).

(** A branch without upstream, with something to commit. *)
Definition noUpstream : Env :=
  around (Build_GitClient (Resolved clean) saved ok (Resolved localBranch) ok ok ok ok
            (Resolved stagedLocalBranch) ok ok).

(** The remote cannot be reached. *)
Definition fetchFails : Env :=
  around (Build_GitClient (Resolved clean) saved (Rejected offline) (Resolved clean)
            ok ok ok ok (Resolved clean) ok ok).

(** The plugin with auto-sync running every 15 minutes. *)
Definition ticking : State :=
  set_timers [(1%positive, 900000)] 2%positive (set_syncInterval (Some 1%positive) plugin).

(** The plugin with a non-positive interval configured. *)
Definition zeroInterval : State :=
  set_settings
    {| commitInterval := 0; repoUrl := repoUrl vaultSettings;
       authMethod := ssh; autoSync := true; lastSync := "Never";
       commitMessage := commitMessage vaultSettings; logMaxEntries := 50 |}
    plugin.

(** The plugin whose git handle is missing. *)
Definition unready : State := set_git false plugin.

(** The plugin without a repository URL. *)
Definition zeroUrl : State :=
  set_settings
    {| commitInterval := 15; repoUrl := ""; authMethod := ssh; autoSync := true;
       lastSync := "Never"; commitMessage := commitMessage vaultSettings;
       logMaxEntries := 50 |}
    plugin.

(** A vault that is not on the local filesystem. *)
Definition mobile : Env := {|
  basePath := None;
  client := client quiet;
  momentAtCommit := "2025-01-01 10:00:00";
  momentAtSync := "2025-01-01 10:00:01"
|}.



(** The stash is created and the fetch fails. *)
Definition fetchFailsAfterStash : Env :=
  around (Build_GitClient (Resolved modified) saved (Rejected offline) (Resolved clean)
            ok ok ok ok (Resolved clean) ok ok).

(** The stash is created and popping it conflicts. *)
Definition popConflicts : Env :=
  around (Build_GitClient (Resolved modified) saved ok (Resolved clean)
            ok ok (Rejected conflict) ok (Resolved clean) ok ok).

(** The branch is behind and the rebase fails without a conflict. *)
Definition rebaseFails : Env :=
  around (Build_GitClient (Resolved modified) saved ok (Resolved behindByTwo)
            (Rejected offline) ok ok ok (Resolved clean) ok ok).

(** The rebase conflicts and cannot be aborted. *)
Definition abortFails : Env :=
  around (Build_GitClient (Resolved modified) saved ok (Resolved behindByTwo)
            (Rejected conflict) (Rejected diskFull) ok ok (Resolved clean) ok ok).

(** The stash is popped, the commit is made and the push fails. *)
Definition pushFailsAfterPop : Env :=
  around (Build_GitClient (Resolved modified) saved ok (Resolved clean)
            ok ok ok ok (Resolved staged) ok (Rejected offline)).

End Sample.

(** ** Other code of [main.ts] *)

(** The first revision's choice of the files to commit:
    [status.files.filter(file => file.working_dir !== " " &&
                                 file.working_dir !== "?")]. *)
Definition filesToCommit_v1 (st : StatusResult) : list FileStatusResult :=
  filter (fun file =>
            negb (working_dir file =? " ")%string
            && negb (working_dir file =? "?")%string)
         (files st).


Definition with_autoSync (v : bool) (s : GitSyncSettings) : GitSyncSettings :=
  {| commitInterval := commitInterval s; repoUrl := repoUrl s;
     authMethod := authMethod s; autoSync := v; lastSync := lastSync s;
     commitMessage := commitMessage s; logMaxEntries := logMaxEntries s |}.

(** The "Enable Auto Sync" toggle's change handler, up to the re-rendering
    of the settings tab. *)
Definition onAutoSyncToggled (value : bool) : M unit :=
  cur <- get settings ;;
  modify (set_settings (with_autoSync value cur)) ;;
  saveSettings ;;
  ready <- get git ;;
  if value && ready then startAutoSync else stopAutoSync.

(** Every timer of the host has a handle below the next one to be given
    out, as [window.setInterval] hands out increasing handles. *)
Definition freshHandles (s : State) : Prop :=
  Forall (fun t => (fst t < nextTimer s)%positive) (timers s).

(** The calls that follow the stash pop. *)
Definition afterPop (op : GitOp) : bool :=
  match op with
  | Add | Status Final | Commit _ | Push => true
  | _ => false
  end.

(** The error [syncVault_commit] raises when the stash pop conflicts. *)
Definition popConflict : JsError :=
  new_Error "Conflict applying stashed changes. Manual resolution needed.".

(** The [catch] block's warning that the local changes are still stashed. *)
Definition isStashWarning (e : Event) : bool :=
  match e with
  | ENotice Notification.StashedRecoverManually _ => true
  | _ => false
  end.

(** The place of each call in the sequence [syncVault] is written in. *)
Definition rank (op : GitOp) : nat :=
  match op with
  | Status Initial => 1
  | StashPush => 2
  | Fetch => 3
  | Status AfterFetch => 4
  | Rebase _ => 5
  | RebaseAbort => 6
  | StashPop => 7
  | Add => 8
  | Status Final => 9
  | Commit _ => 10
  | Push => 11
  end%nat.

(** The calls [ops] come in the order of their ranks, all after rank
    [last]. *)
Fixpoint inOrder (last : nat) (ops : list GitOp) : bool :=
  match ops with
  | [] => true
  | op :: ops' => Nat.ltb last (rank op) && inOrder (rank op) ops'
  end.

(** The calls [syncVault] awaits outside any [try] block of its own: their
    failure goes straight to the [catch] block. *)
Definition isPlainCall (op : GitOp) : bool :=
  match op with
  | Status _ | Fetch | Add | Commit _ | Push => true
  | _ => false
  end.

(** No call of [ops] comes after [op] in the sequence of the run. *)
Definition endsAt (op : GitOp) (ops : list GitOp) : bool :=
  forallb (fun op' => Nat.leb (rank op') (rank op)) ops.

(** What the status bar item holds after the status [last] was set, when
    it held [el] before: nothing without an item, and without a status what
    it held. *)
Definition shown (last : option string) (el : option string) : option string :=
  match last with
  | Some text => setText ("Git Sync: " ++ text) el
  | None => el
  end.


(** * Proofs *)

(** ** Traces *)

Lemma gitOps_app (t u : list Event) :
  gitOps (t ++ u) = (gitOps t ++ gitOps u)%list.
Proof.
  induction t as [|e t IH]; [reflexivity|].
  destruct e; cbn [gitOps app]; rewrite IH; reflexivity.
Qed.

Lemma count_app p (t u : list Event) :
  count p (t ++ u) = (count p t + count p u)%nat.
Proof.
  induction t as [|e t IH]; [reflexivity|].
  destruct e; cbn [count app]; try exact IH.
  destruct (p op); cbn [Nat.add]; rewrite IH; reflexivity.
Qed.

Lemma lastStatus_app (t u : list Event) :
  lastStatus (t ++ u) =
  match lastStatus u with
  | Some later => Some later
  | None => lastStatus t
  end.
Proof.
  induction t as [|e t IH]; cbn [app lastStatus].
  - destruct (lastStatus u); reflexivity.
  - destruct e; try exact IH.
    rewrite IH. destruct (lastStatus u), (lastStatus t); reflexivity.
Qed.

Lemma held_app (t u : Trace) :
  forallb fst t = true -> held (t ++ u)%list = held u.
Proof.
  induction t as [|[[] e] t IH]; cbn; intros H; auto; discriminate.
Qed.

Lemma released_spec (t : Trace) :
  released t = true ->
  Forall (fun o => fst o = false /\ isGit (snd o) = false) t.
Proof.
  induction t as [|[flag e] t IH]; cbn; intros H; constructor; cbn.
  - destruct flag, (isGit e); try discriminate. auto.
  - apply IH. destruct flag, (isGit e); try discriminate. assumption.
Qed.

Lemma held_spec (t : Trace) :
  held t = true ->
  exists during afterwards,
    t = (during ++ afterwards)%list /\
    Forall (fun o => fst o = true) during /\
    Forall (fun o => fst o = false /\ isGit (snd o) = false) afterwards.
Proof.
  induction t as [|[flag e] t IH]; intros H.
  - exists [], []. repeat split; constructor.
  - destruct flag; cbn in H.
    + destruct (IH H) as (d & a & -> & Hd & Ha).
      exists ((true, e) :: d), a. repeat split; auto.
    + exists [], ((false, e) :: t). repeat split; auto.
      apply (released_spec ((false, e) :: t)). exact H.
Qed.

(** The boolean check [idle] decides the flag discipline. *)
Lemma idle_spec (t : Trace) : idle t = true -> SingleFlight t.
Proof.
  induction t as [|[flag e] t IH]; intros H.
  - exists [], [], []. repeat split; constructor.
  - destruct flag; cbn in H.
    + destruct (held_spec _ H) as (d & a & -> & Hd & Ha).
      exists [], ((true, e) :: d), a. repeat split; auto.
    + apply andb_prop in H. destruct H as [He H].
      destruct (IH H) as (b & d & a & -> & Hb & Hd & Ha).
      exists ((false, e) :: b), d, a. repeat split; auto.
      constructor; auto. cbn. split; [reflexivity|].
      destruct (isGit e); [discriminate|reflexivity].
Qed.

Lemma forallb_In {A} (p : A -> bool) (l : list A) (x : A) :
  forallb p l = true -> In x l -> p x = true.
Proof.
  intros H Hx. rewrite forallb_forall in H. auto.
Qed.

Lemma existsb_In {A} (p : A -> bool) (l : list A) (x : A) :
  existsb p l = false -> In x l -> p x = false.
Proof.
  intros H Hx. destruct (p x) eqn:Hp; [|reflexivity].
  rewrite <- H. symmetry. apply existsb_exists. exists x. auto.
Qed.

(** ** Symbolic execution *)

(** [handleSyncError] is [report] at the branch [classify] picks. *)
Lemma handleSyncError_report error s :
  handleSyncError error s = report (classify error) error s.
Proof.
  unfold handleSyncError, classify.
  cbv beta iota zeta delta [bind].
  repeat match goal with
         | |- context [if ?b then _ else _] =>
             lazymatch b with
             | context [if _ then _ else _] => fail
             | _ => destruct b
             end
         end; reflexivity.
Qed.

Ltac unfold_program_in E :=
  cbv beta iota zeta delta
    [syncVault_catch syncVault_finally report
     initializeGit saveSettings updateStatusBar
     setInterval clearInterval await awaitVoid new_Error
     Notice NoticeFor console consoleWith
     bind ret after throw return_ get modify emit try_catch try_finally
     set_settings set_git set_statusBarItemEl set_syncInterval set_isSyncing
     set_stashed set_savedData set_timers
     settings git statusBarItemEl syncInterval isSyncing onExternalSettingsChange
     stashed savedData timers nextTimer err_message
     completion final events] in E.

Ltac destruct_state s :=
  let cfg := fresh "cfg" in
  let ready := fresh "ready" in
  let el := fresh "el" in
  let timer := fresh "timer" in
  let busy := fresh "busy" in
  let hook := fresh "hook" in
  let shelved := fresh "shelved" in
  let saved := fresh "saved" in
  let ts := fresh "ts" in
  let nt := fresh "nt" in
  destruct s as [cfg ready el timer busy hook shelved saved ts nt].

Ltac destruct_outcome x :=
  let c := fresh "c" in
  let f := fresh "f" in
  let t := fresh "t" in
  destruct x as [c f t].

Ltac decide_closed x :=
  let v := eval vm_compute in x in
  lazymatch v with
  | true => change x with true in *
  | false => change x with false in *
  | Some ?y => lazymatch y with
               | context [match _ with _ => _ end] => fail
               | _ => change x with v in *
               end
  | @None _ => change x with v in *
  end.

Ltac case_on x :=
  first [ decide_closed x
        | lazymatch type of x with
          | State => destruct_state x
          | _ => destruct x eqn:?
          end ].

Ltac find_stuck_in E k :=
  match type of E with
  | context [match ?x with _ => _ end] =>
      lazymatch x with
      | context [match _ with _ => _ end] => fail
      | _ => k x
      end
  end.

(** Runs the program in [E : o = program state], splitting on whatever the
    next step depends on; [special] may treat some of these itself. *)
Ltac exec_in E special :=
  unfold_program_in E;
  repeat (first [ rewrite handleSyncError_report in E
                | find_stuck_in E ltac:(fun x => first [ special x | case_on x ]) ];
          unfold_program_in E).

Ltac no_special x := fail.

Ltac lists :=
  cbn [app map log events final completion fst snd forallb existsb andb orb negb
       gitOps lastStatus count In filter List.length Nat.add
       isGit isRebase isRebaseAbort isCommit isPush isSave beforeCommit inCommit].

Ltac lists_app :=
  lists;
  repeat rewrite <- app_assoc;
  rewrite ?map_app, ?gitOps_app, ?lastStatus_app, ?forallb_app, ?existsb_app,
    ?count_app, ?in_app_iff;
  lists.

Ltac in_list := cbn [In]; repeat (first [ left; reflexivity | right ]).


Ltac split_or H :=
  repeat match type of H with
         | _ \/ _ => destruct H as [H|H]
         | False => destruct H
         end.

Ltac simpl_in F :=
  cbv beta iota zeta delta
    [log events final completion
     settings git statusBarItemEl syncInterval isSyncing onExternalSettingsChange
     stashed savedData timers nextTimer] in F.

Ltac simpl_state :=
  cbv beta iota zeta delta
    [log events final completion
     settings git statusBarItemEl syncInterval isSyncing onExternalSettingsChange
     stashed savedData timers nextTimer].

Ltac in_search :=
  lazymatch goal with
  | |- _ \/ _ => first [ left; in_search | right; in_search ]
  | |- _ => first [ reflexivity | assumption ]
  end.

Ltac in_hyps := rewrite ?in_app_iff; cbn [In]; in_search.

Ltac tail_try lemma x :=
  lazymatch x with
  | syncVault_try ?env ?s =>
      let F := fresh "F" in
      pose proof (lemma env s) as F;
      destruct_outcome x; simpl_in F
  end.

Ltac tail_commit lemma x :=
  lazymatch x with
  | syncVault_commit ?env ?cb ?s =>
      let F := fresh "F" in
      pose proof (lemma env cb s) as F;
      destruct_outcome x; simpl_in F
  end.

Ltac closed_value v :=
  lazymatch v with
  | true => idtac
  | false => idtac
  | @None _ => idtac
  | Some ?y =>
      lazymatch y with
      | context [match _ with _ => _ end] => fail
      | _ => idtac
      end
  end.

(** Evaluates the recorded tests that have become closed, closing the goal
    when one of them is contradictory. *)
Ltac settle_eqns :=
  repeat match goal with
         | Hq : ?l = _ |- _ =>
             lazymatch l with
             | true => fail
             | false => fail
             | Some _ => fail
             | @None _ => fail
             | _ => idtac
             end;
             let v := eval vm_compute in l in
             closed_value v;
             vm_compute in Hq;
             first [ discriminate Hq | injection Hq as <- | clear Hq ]
         end.

(** ** The flag [isSyncing] *)

Lemma commit_held env cb s :
  isSyncing s = true ->
  forallb fst (events (syncVault_commit env cb s)) = true
  /\ isSyncing (final (syncVault_commit env cb s)) = true.
Proof.
  intros H. destruct_state s; cbn in H; subst.
  remember (syncVault_commit _ _ _) as o eqn:E.
  unfold syncVault_commit in E. exec_in E no_special.
  all: subst o; lists; split; reflexivity.
Qed.

Ltac tail_commit_held x :=
  lazymatch x with
  | syncVault_commit ?env ?cb ?s =>
      let F := fresh "F" in
      pose proof (commit_held env cb s eq_refl) as F;
      destruct_outcome x; simpl_in F; destruct F
  end.

Lemma try_held env s :
  isSyncing s = true ->
  forallb fst (events (syncVault_try env s)) = true
  /\ (completion (syncVault_try env s) = Return
      \/ isSyncing (final (syncVault_try env s)) = true).
Proof.
  intros H. destruct_state s; cbn in H; subst.
  remember (syncVault_try _ _) as o eqn:E.
  unfold syncVault_try in E. exec_in E tail_commit_held.
  all: subst o; lists_app; split; auto.
  all: match goal with H : ?a = true |- ?a && true = true => rewrite H; reflexivity end.
Qed.

Ltac tail_try_held x :=
  lazymatch x with
  | syncVault_try ?env ?s =>
      let F := fresh "F" in
      pose proof (try_held env s eq_refl) as F;
      destruct_outcome x; simpl_in F; destruct F
  end.

Lemma syncVault_idle env s :
  isSyncing s = false ->
  isSyncing (final (syncVault env s)) = false
  /\ idle (events (syncVault env s)) = true.
Proof.
  intros H. destruct_state s; cbn in H; subst.
  remember (syncVault _ _) as o eqn:E.
  unfold syncVault in E. exec_in E tail_try_held.
  all: subst o; cbn [events final completion isSyncing] in *; split; try reflexivity.
  all: cbn [app idle held released isGit negb andb];
    repeat rewrite <- app_assoc; try rewrite held_app by assumption.
  all: cbn [app idle held released isGit negb andb]; try reflexivity.
  all: repeat match goal with
         | H : _ \/ _ |- _ => destruct H
         | H : ?x = true |- context [?x] => rewrite H
         end; try discriminate; try reflexivity.
Qed.

(** ** What each part of the [try] block can emit *)

Lemma commit_footprint env cb s :
  forallb commit_event (log (syncVault_commit env cb s)) = true.
Proof.
  remember (syncVault_commit _ _ _) as o eqn:E.
  unfold syncVault_commit in E. exec_in E no_special.
  all: subst o; reflexivity.
Qed.

Lemma commit_event_try e : commit_event e = true -> try_event e = true.
Proof.
  destruct e; cbn; auto. intros ->. apply orb_true_r.
Qed.

Lemma forallb_impl {A} (p q : A -> bool) (l : list A) :
  (forall x, p x = true -> q x = true) ->
  forallb p l = true -> forallb q l = true.
Proof.
  intros Hpq. rewrite !forallb_forall. auto.
Qed.

Ltac tail_commit_footprint x := tail_commit commit_footprint x.

Lemma try_footprint env s :
  forallb try_event (log (syncVault_try env s)) = true.
Proof.
  remember (syncVault_try _ _) as o eqn:E.
  unfold syncVault_try in E. exec_in E tail_commit_footprint.
  all: subst o; lists_app; try reflexivity.
  all: apply (forallb_impl _ _ _ commit_event_try); assumption.
Qed.

(** A part that only makes the calls [q] makes no call [p] excludes. *)
Lemma count_none (p q : GitOp -> bool) (ok : Event -> bool) (t : list Event) :
  (forall op r, ok (EGit op r) = true -> q op = true) ->
  (forall op, q op = true -> p op = false) ->
  forallb ok t = true -> count p t = 0%nat.
Proof.
  intros Hok Hpq.
  induction t as [|e t IH]; [reflexivity|].
  cbn [forallb]. intros H. apply andb_prop in H. destruct H as [He Ht].
  destruct e; cbn [count]; auto.
  rewrite (Hpq op (Hok op r He)). auto.
Qed.

Lemma not_in_none (x : GitOp) (q : GitOp -> bool) (ok : Event -> bool) (t : list Event) :
  (forall op r, ok (EGit op r) = true -> q op = true) ->
  q x = false ->
  forallb ok t = true -> ~ In x (gitOps t).
Proof.
  intros Hok Hx.
  induction t as [|e t IH]; [intros _ []|].
  cbn [forallb]. intros H. apply andb_prop in H. destruct H as [He Ht].
  destruct e; cbn [gitOps]; auto.
  intros [->|Hin]; [|exact (IH Ht Hin)].
  rewrite (Hok _ _ He) in Hx. discriminate.
Qed.

Lemma commit_event_git op r : commit_event (EGit op r) = true -> inCommit op = true.
Proof. exact (fun H => H). Qed.

Lemma gitOps_forallb (q : GitOp -> bool) (ok : Event -> bool) (t : list Event) :
  (forall op r, ok (EGit op r) = true -> q op = true) ->
  forallb ok t = true -> forallb q (gitOps t) = true.
Proof.
  intros Hok.
  induction t as [|e t IH]; [reflexivity|].
  cbn [forallb]. intros H. apply andb_prop in H. destruct H as [He Ht].
  destruct e; cbn [gitOps forallb]; auto.
  rewrite (Hok _ _ He), (IH Ht). reflexivity.
Qed.

(** ** A failing stash *)

Lemma try_stash_failure env s e :
  let o := syncVault_try env s in
  In (EGit StashPush (Rejected e)) (log o) ->
  completion o = Return
  /\ isSyncing (final o) = false
  /\ stashed (final o) = stashed s
  /\ In (ENotice Notification.StashFailed None) (log o)
  /\ lastStatus (log o) = Some "Stash Error"
  /\ gitOps (log o) = [Status Initial; StashPush].
Proof.
  intros o. subst o. destruct_state s.
  remember (syncVault_try _ _) as o eqn:E.
  unfold syncVault_try in E. exec_in E tail_commit_footprint.
  all: subst o; lists_app; intros H; split_or H; try discriminate H.
  all: try (apply (forallb_In _ _ _ F) in H; discriminate H).
  repeat split; try reflexivity. in_list.
Qed.

(** C5.  When the stash push fails, the run stops there: [syncVault] returns,
    the flag is down, the user is told that the sync was aborted to prevent
    data loss, the status bar reads "Stash Error", no stash is assumed
    ([stashed] is false), and the only git calls of the run are the initial
    status and the stash push itself. *)
Theorem stash_failure_aborts_run env s e :
  let r := syncVault env s in
  In (EGit StashPush (Rejected e)) (log r) ->
  completion r = Return
  /\ isSyncing (final r) = false
  /\ stashed (final r) = false
  /\ In (ENotice Notification.StashFailed None) (log r)
  /\ lastStatus (log r) = Some "Stash Error"
  /\ gitOps (log r) = [Status Initial; StashPush].
Proof.
  intros r. subst r. destruct_state s.
  remember (syncVault _ _) as o eqn:E.
  unfold syncVault in E.
  exec_in E ltac:(fun x => tail_try (fun env s => try_stash_failure env s e) x).
  all: subst o; lists_app; intros H; split_or H; try discriminate H.
  all: destruct (F H) as (Hc & Hb & Hs & Hn & Hl & Hg); try discriminate Hc.
  all: simpl_state; rewrite Hl, Hg; repeat split; auto; in_hyps.
Qed.

(** ** A stash push that shelves nothing *)

Lemma commit_without_stash env cb s :
  stashed s = false ->
  stashed (final (syncVault_commit env cb s)) = false
  /\ ~ In StashPop (gitOps (log (syncVault_commit env cb s))).
Proof.
  intros H. destruct_state s. cbn in H. subst.
  remember (syncVault_commit _ _ _) as o eqn:E.
  unfold syncVault_commit in E. exec_in E no_special.
  all: subst o; lists; split; [reflexivity|].
  all: intros H; split_or H; discriminate H.
Qed.

Ltac tail_commit_unstashed x :=
  lazymatch x with
  | syncVault_commit ?env ?cb ?s =>
      let F := fresh "F" in
      let G := fresh "G" in
      pose proof (commit_footprint env cb s) as F;
      try pose proof (commit_without_stash env cb s eq_refl) as G;
      destruct_outcome x; simpl_in F; try simpl_in G
  end.

Lemma try_noop_stash env s text :
  let o := syncVault_try env s in
  In (EGit StashPush (Resolved (VText text))) (log o) ->
  stashCreated text = false ->
  stashed (final o) = false /\ ~ In StashPop (gitOps (log o)).
Proof.
  intros o. subst o. destruct_state s.
  remember (syncVault_try _ _) as o eqn:E.
  unfold syncVault_try in E. exec_in E tail_commit_unstashed.
  all: subst o; lists_app; intros H Hnone; split_or H; try discriminate H.
  all: try (apply (forallb_In _ _ _ F) in H; discriminate H).
  all: injection H as ->; try congruence.
  all: simpl_state; split; [reflexivity || apply G|].
  all: intros H; split_or H; try discriminate H.
  all: apply G in H; exact H.
Qed.

(** C6.  When the stash push reports that nothing was shelved, [stashed] ends
    false and no stash pop is attempted in the run. *)
Theorem noop_stash_is_never_popped env s text :
  let r := syncVault env s in
  In (EGit StashPush (Resolved (VText text))) (log r) ->
  stashCreated text = false ->
  stashed (final r) = false /\ ~ In StashPop (gitOps (log r)).
Proof.
  intros r. subst r. destruct_state s.
  remember (syncVault _ _) as o eqn:E.
  unfold syncVault in E.
  exec_in E ltac:(fun x => tail_try (fun env s => try_noop_stash env s text) x).
  all: subst o; lists_app; intros H Hnone; split_or H; try discriminate H.
  all: destruct (F H Hnone) as [Hs Hp].
  all: simpl_state; split; [exact Hs|].
  all: intros Hin; rewrite ?in_app_iff in Hin; cbn [In] in Hin; split_or Hin;
    try discriminate Hin; exact (Hp Hin).
Qed.

(** ** Nothing staged *)

Lemma commit_nothing_staged env cb s st :
  let o := syncVault_commit env cb s in
  In (EGit (Status Final) (Resolved (VStatus st))) (log o) ->
  filesToCommit st = [] ->
  completion o = Normal tt
  /\ count isCommit (log o) = 0%nat
  /\ count isPush (log o) = 0%nat
  /\ settings (final o) = with_lastSync (momentAtSync env) (settings s)
  /\ savedData (final o) = settings (final o)
  /\ In (ESaveData (settings (final o))) (log o)
  /\ lastStatus (log o) = Some "Up-to-date".
Proof.
  intros o. subst o. destruct_state s.
  remember (syncVault_commit _ _ _) as o eqn:E.
  unfold syncVault_commit in E. exec_in E no_special.
  all: subst o; lists; intros H Hfiles; split_or H; try discriminate H.
  all: injection H as ->.
  all: match goal with
       | Hlt : (0 <? List.length (filesToCommit _))%nat = _ |- _ =>
           rewrite Hfiles in Hlt; try discriminate Hlt
       end.
  all: simpl_state; repeat split; in_list.
Qed.

Lemma try_nothing_staged env s st :
  let o := syncVault_try env s in
  In (EGit (Status Final) (Resolved (VStatus st))) (log o) ->
  filesToCommit st = [] ->
  completion o = Normal tt
  /\ count isCommit (log o) = 0%nat
  /\ count isPush (log o) = 0%nat
  /\ settings (final o) = with_lastSync (momentAtSync env) (settings s)
  /\ savedData (final o) = settings (final o)
  /\ In (ESaveData (settings (final o))) (log o)
  /\ lastStatus (log o) = Some "Up-to-date".
Proof.
  intros o. subst o. destruct_state s.
  remember (syncVault_try _ _) as o eqn:E.
  unfold syncVault_try in E.
  exec_in E ltac:(fun x => tail_commit (fun env cb s => commit_nothing_staged env cb s st) x).
  all: subst o; lists; intros H Hfiles; split_or H; try discriminate H.
  all: destruct (F H Hfiles) as (Hc & Hn & Hp & Hset & Hsav & Hin & Hl).
  all: simpl_state; rewrite Hl; repeat split; auto; in_hyps.
Qed.

(** C7.  When the status taken after staging shows no staged path, the run
    makes no commit and no push, writes the current time to [lastSync],
    persists the settings, and ends with "Up-to-date" in the status bar. *)
Theorem nothing_staged_is_up_to_date env s st :
  let r := syncVault env s in
  In (EGit (Status Final) (Resolved (VStatus st))) (log r) ->
  filesToCommit st = [] ->
  completion r = Normal tt
  /\ count isCommit (log r) = 0%nat
  /\ count isPush (log r) = 0%nat
  /\ lastSync (settings (final r)) = momentAtSync env
  /\ savedData (final r) = settings (final r)
  /\ In (ESaveData (settings (final r))) (log r)
  /\ lastStatus (log r) = Some "Up-to-date".
Proof.
  intros r. subst r. destruct_state s.
  remember (syncVault _ _) as o eqn:E.
  unfold syncVault in E.
  exec_in E ltac:(fun x => tail_try (fun env s => try_nothing_staged env s st) x).
  all: subst o; lists_app; intros H Hfiles; split_or H; try discriminate H.
  all: destruct (F H Hfiles) as (Hc & Hn & Hp & Hset & Hsav & Hin & Hl);
    try discriminate Hc.
  all: simpl_state; rewrite Hl, Hn, Hp; subst cfg0 saved0; repeat split; auto; in_hyps.
Qed.

(** ** A commit without an upstream *)

Lemma commit_no_upstream env cb s st m :
  let o := syncVault_commit env cb s in
  In (EGit (Commit m) (Resolved VVoid)) (log o) ->
  In (EGit (Status Final) (Resolved (VStatus st))) (log o) ->
  Js.truthyOpt (tracking st) = false ->
  completion o = Normal tt
  /\ count isPush (log o) = 0%nat
  /\ In (EConsole Warn (Diagnostic.CommitNotPushed cb) None) (log o)
  /\ In (ENotice (Notification.PushSkipped cb) None) (log o)
  /\ settings (final o) = with_lastSync (momentAtSync env) (settings s)
  /\ savedData (final o) = settings (final o)
  /\ In (ESaveData (settings (final o))) (log o)
  /\ lastStatus (log o) = Some "Committed (not pushed)".
Proof.
  intros o. subst o. destruct_state s.
  remember (syncVault_commit _ _ _) as o eqn:E.
  unfold syncVault_commit in E. exec_in E no_special.
  all: subst o; lists; intros Hm H Htr; split_or Hm; try discriminate Hm.
  all: split_or H; try discriminate H.
  all: injection H as ->; try congruence.
  all: simpl_state; repeat split; in_list.
Qed.

Lemma try_no_upstream env s st m :
  let o := syncVault_try env s in
  In (EGit (Commit m) (Resolved VVoid)) (log o) ->
  In (EGit (Status Final) (Resolved (VStatus st))) (log o) ->
  Js.truthyOpt (tracking st) = false ->
  completion o = Normal tt
  /\ count isPush (log o) = 0%nat
  /\ (exists fetched,
        In (EGit (Status AfterFetch) (Resolved (VStatus fetched))) (log o)
        /\ In (EConsole Warn (Diagnostic.CommitNotPushed (current fetched)) None) (log o)
        /\ In (ENotice (Notification.PushSkipped (current fetched)) None) (log o))
  /\ settings (final o) = with_lastSync (momentAtSync env) (settings s)
  /\ savedData (final o) = settings (final o)
  /\ In (ESaveData (settings (final o))) (log o)
  /\ lastStatus (log o) = Some "Committed (not pushed)".
Proof.
  intros o. subst o. destruct_state s.
  remember (syncVault_try _ _) as o eqn:E.
  unfold syncVault_try in E.
  exec_in E ltac:(fun x => tail_commit (fun env cb s => commit_no_upstream env cb s st m) x).
  all: subst o; lists; intros Hm H Htr; split_or Hm; try discriminate Hm.
  all: split_or H; try discriminate H.
  all: destruct (F Hm H Htr) as (Hc & Hp & Hw & Hn & Hset & Hsav & Hin & Hl).
  all: simpl_state; rewrite Hl; repeat split; auto; try in_hyps.
  all: eexists; repeat split; in_hyps.
Qed.

(** C8.  When the commit succeeds and the status taken after staging has no
    tracking branch, the run makes no push, warns on the console and in a
    notice that the push was skipped, writes the current time to [lastSync],
    persists the settings, and ends with "Committed (not pushed)" in the
    status bar. *)
Theorem commit_without_upstream_is_not_pushed env s st m :
  let r := syncVault env s in
  In (EGit (Commit m) (Resolved VVoid)) (log r) ->
  In (EGit (Status Final) (Resolved (VStatus st))) (log r) ->
  Js.truthyOpt (tracking st) = false ->
  completion r = Normal tt
  /\ count isPush (log r) = 0%nat
  /\ (exists fetched,
        In (EGit (Status AfterFetch) (Resolved (VStatus fetched))) (log r)
        /\ In (EConsole Warn (Diagnostic.CommitNotPushed (current fetched)) None) (log r)
        /\ In (ENotice (Notification.PushSkipped (current fetched)) None) (log r))
  /\ lastSync (settings (final r)) = momentAtSync env
  /\ savedData (final r) = settings (final r)
  /\ In (ESaveData (settings (final r))) (log r)
  /\ lastStatus (log r) = Some "Committed (not pushed)".
Proof.
  intros r. subst r. destruct_state s.
  remember (syncVault _ _) as o eqn:E.
  unfold syncVault in E.
  exec_in E ltac:(fun x => tail_try (fun env s => try_no_upstream env s st m) x).
  all: subst o; lists_app; intros Hm H Htr; split_or Hm; try discriminate Hm.
  all: split_or H; try discriminate H.
  all: destruct (F Hm H Htr) as (Hc & Hp & (fetched & Hf & Hw & Hn) & Hset & Hsav & Hin & Hl);
    try discriminate Hc.
  all: simpl_state; rewrite Hl, Hp; subst cfg0 saved0; repeat split; auto; try in_hyps.
  all: exists fetched; repeat split; in_hyps.
Qed.

(** ** Settings are saved on success only *)

Lemma commit_saves_on_success env cb s :
  let o := syncVault_commit env cb s in
  match completion o with
  | Normal _ => In (lastStatus (log o)) successLabels
  | Return => False
  | Throw _ =>
      settings (final o) = settings s /\ savedData (final o) = savedData s
      /\ existsb isSave (log o) = false
  end.
Proof.
  intros o. subst o. destruct_state s.
  remember (syncVault_commit _ _ _) as o eqn:E.
  unfold syncVault_commit in E. exec_in E no_special.
  all: subst o; lists; simpl_state; unfold successLabels; try in_list.
  all: repeat split.
Qed.

Lemma try_saves_on_success env s :
  let o := syncVault_try env s in
  match completion o with
  | Normal _ => In (lastStatus (log o)) successLabels
  | _ =>
      settings (final o) = settings s /\ savedData (final o) = savedData s
      /\ existsb isSave (log o) = false
  end.
Proof.
  intros o. subst o. destruct_state s.
  remember (syncVault_try _ _) as o eqn:E.
  unfold syncVault_try in E.
  exec_in E ltac:(fun x => tail_commit commit_saves_on_success x).
  all: subst o; lists; simpl_state; try (repeat split; fail).
  all: destruct c; try contradiction; auto.
Qed.

Ltac tail_try_saves x :=
  lazymatch x with
  | syncVault_try ?env ?s =>
      let F := fresh "F" in
      let G := fresh "G" in
      let K := fresh "K" in
      pose proof (try_saves_on_success env s) as F;
      pose proof (try_footprint env s) as G;
      pose proof (fun e => try_stash_failure env s e) as K;
      destruct_outcome x; simpl_in F; simpl_in G; simpl_in K
  end.

(** C9.  A run that fails, by an error that reaches the [catch] block or by
    the early return after a failed stash push, leaves the persisted record
    and the settings in memory as they were and saves nothing.  A run that
    saves ends normally with one of the three success labels in the status
    bar. *)
Theorem settings_saved_on_success_only env s :
  let r := syncVault env s in
  ((exists e, In (caught e) (log r))
   \/ (exists e, In (EGit StashPush (Rejected e)) (log r)) ->
   savedData (final r) = savedData s
   /\ settings (final r) = settings s
   /\ existsb isSave (log r) = false)
  /\ (existsb isSave (log r) = true ->
      completion r = Normal tt /\ In (lastStatus (log r)) successLabels).
Proof.
  intros r. subst r. destruct_state s.
  remember (syncVault _ _) as o eqn:E.
  unfold syncVault in E. exec_in E tail_try_saves.
  all: subst o; lists_app; simpl_state; unfold caught, successLabels in *; split.
  all: try (intros [[? H]|[? H]]; rewrite ?in_app_iff in H; cbn [In] in H;
            split_or H; try discriminate H;
            try (apply (forallb_In _ _ _ G) in H; discriminate H);
            try (destruct (K _ H) as (Hc & _); try discriminate Hc);
            destruct F as (-> & -> & ->); repeat split; reflexivity).
  all: intros H; try discriminate H.
  all: try (destruct F as (_ & _ & F); rewrite F in H; cbn in H; discriminate H).
  all: try destruct a; split; [reflexivity|].
  all: cbn [In] in F; split_or F; rewrite <- F; in_list.
Qed.

(** ** No current branch *)

Lemma classify_notOnBranch :
  classify notOnBranch = SyncError "Git Sync: Not on a branch, cannot sync.".
Proof. vm_compute. reflexivity. Qed.

Lemma try_no_branch env s st :
  let o := syncVault_try env s in
  In (EGit (Status AfterFetch) (Resolved (VStatus st))) (log o) ->
  Js.truthyOpt (current st) = false ->
  completion o = Throw notOnBranch
  /\ forallb beforeRebase (gitOps (log o)) = true
  /\ In (ENotice Notification.NotOnBranch None) (log o).
Proof.
  intros o. subst o. destruct_state s.
  remember (syncVault_try _ _) as o eqn:E.
  unfold syncVault_try in E. exec_in E tail_commit_footprint.
  all: subst o; lists; intros H Hcur; split_or H; try discriminate H.
  all: try (apply (forallb_In _ _ _ F) in H; discriminate H).
  all: injection H as ->.
  all: try (rewrite Hcur in *; discriminate).
  all: repeat split; in_list.
Qed.

(** C4 as the code has it.  When the status taken after the fetch has no
    current branch, the run makes no further git call (no rebase, stash pop,
    stage, commit or push), tells the user to check out a branch, and the
    error reaches the top-level handler, whose classifier has no
    configuration branch: it reports the error through its last, generic
    branch, with "Sync Error" in the status bar. *)
Theorem no_branch_aborts_as_generic_error env s st :
  let r := syncVault env s in
  In (EGit (Status AfterFetch) (Resolved (VStatus st))) (log r) ->
  Js.truthyOpt (current st) = false ->
  forallb beforeRebase (gitOps (log r)) = true
  /\ In (ENotice Notification.NotOnBranch None) (log r)
  /\ In (caught notOnBranch) (log r)
  /\ kindOf (classify notOnBranch) = GenericFailure
  /\ In (ENotice (noticeOf (classify notOnBranch)) (Some 10000)) (log r)
  /\ lastStatus (log r) = Some "Sync Error"
  /\ completion r = Normal tt
  /\ isSyncing (final r) = false.
Proof.
  intros r. subst r. destruct_state s.
  remember (syncVault _ _) as o eqn:E.
  unfold syncVault in E.
  exec_in E ltac:(fun x => tail_try (fun env s => try_no_branch env s st) x).
  all: subst o; lists_app; intros H Hcur; split_or H; try discriminate H.
  all: unfold notOnBranch, new_Error in *.
  all: destruct (F H Hcur) as (Hc & Hops & Hn); try discriminate Hc.
  all: injection Hc as Hc; subst; settle_eqns.
  all: simpl_state; rewrite Hops; repeat split; try reflexivity; in_hyps.
Qed.

(** ** Rebase *)

Lemma commit_count_rebase t :
  forallb commit_event t = true ->
  count isRebase t = 0%nat /\ count isRebaseAbort t = 0%nat.
Proof.
  intros H. split.
  - apply (count_none isRebase inCommit commit_event); auto.
    intros []; cbn; congruence.
  - apply (count_none isRebaseAbort inCommit commit_event); auto.
    intros []; cbn; congruence.
Qed.

Ltac gtb_true :=
  match goal with
  | Hpos : ?b > 0 |- _ =>
      let Hb := fresh "Hb" in
      assert (Hb : (b >? 0) = true) by (apply Z.gtb_lt; lia);
      rewrite ?Hb in *
  end.

Lemma try_rebase env s st :
  let o := syncVault_try env s in
  In (EGit (Status AfterFetch) (Resolved (VStatus st))) (log o) ->
  Js.truthyOpt (current st) = true ->
  Js.truthyOpt (tracking st) = true ->
  behind st > 0 ->
  count isRebase (log o) = 1%nat
  /\ In (Rebase (Js.show (tracking st))) (gitOps (log o))
  /\ forall e,
       In (EGit (Rebase (Js.show (tracking st))) (Rejected e)) (log o) ->
       messageIncludes "CONFLICT" e = true ->
       count isRebaseAbort (log o) = 1%nat
       /\ completion o = Throw rebaseConflict
       /\ forallb beforeCommit (gitOps (log o)) = true
       /\ existsb mentionsStash (log o) = false.
Proof.
  intros o. subst o. destruct_state s.
  remember (syncVault_try _ _) as o eqn:E.
  unfold syncVault_try in E. exec_in E tail_commit_footprint.
  all: subst o; lists; intros H Hcur Htr Hpos; split_or H; try discriminate H.
  all: try (apply (forallb_In _ _ _ F) in H; discriminate H).
  all: injection H as ->.
  all: gtb_true; rewrite ?Hcur, ?Htr in *; try discriminate.
  all: try (destruct (commit_count_rebase _ F) as [Hr Ha]; rewrite ?Hr).
  all: split; [reflexivity|]; split; [in_list|].
  all: intros err H Hconf; split_or H; try discriminate H.
  all: try (apply (forallb_In _ _ _ F) in H; discriminate H).
  all: injection H as ->; try congruence.
  all: repeat split; reflexivity.
Qed.

(** C2 as the code has it.  When the status taken after the fetch has a
    current branch, a tracking branch and [behind > 0], the run calls rebase
    exactly once, onto the tracking branch.  When that call fails with a
    conflict, the run calls rebase-abort exactly once and makes no later git
    call: the stash, if there is one, is not popped.  The error "Merge
    conflict during rebase, operation aborted." reaches the top-level
    handler, which leaves out its stash warning for this error: no notice
    and no status-bar text of the run speaks of the stash. *)
Theorem rebase_conflict_is_aborted_once env s st :
  let r := syncVault env s in
  In (EGit (Status AfterFetch) (Resolved (VStatus st))) (log r) ->
  Js.truthyOpt (current st) = true ->
  Js.truthyOpt (tracking st) = true ->
  behind st > 0 ->
  count isRebase (log r) = 1%nat
  /\ In (Rebase (Js.show (tracking st))) (gitOps (log r))
  /\ forall e,
       In (EGit (Rebase (Js.show (tracking st))) (Rejected e)) (log r) ->
       messageIncludes "CONFLICT" e = true ->
       count isRebaseAbort (log r) = 1%nat
       /\ forallb beforeCommit (gitOps (log r)) = true
       /\ In (caught rebaseConflict) (log r)
       /\ ~ In (ENotice Notification.StashedRecoverManually None) (log r)
       /\ existsb mentionsStash (log r) = false
       /\ isSyncing (final r) = false.
Proof.
  intros r. subst r. destruct_state s.
  remember (syncVault _ _) as o eqn:E.
  unfold syncVault in E.
  exec_in E ltac:(fun x => tail_try (fun env s => try_rebase env s st) x).
  all: subst o; lists_app; intros H Hcur Htr Hpos; split_or H; try discriminate H.
  all: destruct (F H Hcur Htr Hpos) as (Hr & Hin & Hconflict).
  all: rewrite Hr; split; [reflexivity|]; split; [in_hyps|].
  all: intros err H0 Hconf; rewrite ?in_app_iff in H0; cbn [In] in H0;
    split_or H0; try discriminate H0.
  all: destruct (Hconflict _ H0 Hconf) as (Ha & Hc & Hops & Hquiet); try discriminate Hc.
  all: unfold rebaseConflict, new_Error in *; injection Hc as Hc; subst; settle_eqns.
  all: lists_app; simpl_state; rewrite Ha, Hops, Hquiet.
  all: repeat split; try reflexivity; try in_hyps.
  all: intros Hx; rewrite ?in_app_iff in Hx; cbn [In] in Hx; split_or Hx;
    try discriminate Hx.
  all: apply (existsb_In _ _ _ Hquiet) in Hx; discriminate Hx.
Qed.

(** ** Substrings *)

Lemma prefix_app (a s : string) :
  String.prefix a s = true <-> exists b, s = a ++ b.
Proof.
  revert s. induction a as [|c a IH]; intros s.
  - split; [intros _; exists s; reflexivity|].
    intros _. destruct s; reflexivity.
  - destruct s as [|d s]; cbn.
    + split; [discriminate | intros [b Hb]; discriminate].
    + destruct (Ascii.ascii_dec c d) as [->|Hcd].
      * rewrite IH. split; intros [b Hb]; exists b.
        -- cbn. rewrite Hb. reflexivity.
        -- cbn in Hb. injection Hb as ->. reflexivity.
      * split; [discriminate|]. intros [b Hb]. cbn in Hb. injection Hb as Hd _.
        congruence.
Qed.

Lemma append_assoc (a b c : string) : (a ++ b) ++ c = a ++ (b ++ c).
Proof.
  induction a as [|x a IH]; [reflexivity|].
  change (String x ((a ++ b) ++ c) = String x (a ++ b ++ c)).
  rewrite IH. reflexivity.
Qed.

(** [s.includes(sub)] holds exactly when [sub] occurs somewhere in [s]. *)
Lemma includes_occurs (sub s : string) :
  Js.includes sub s = true <-> exists a b, s = a ++ sub ++ b.
Proof.
  induction s as [|c s IH]; unfold Js.includes; fold Js.includes.
  - rewrite orb_false_r, prefix_app. split.
    + intros [b Hb]. exists "", b. exact Hb.
    + intros (a & b & H). destruct a; [exists b; exact H|discriminate].
  - rewrite orb_true_iff, prefix_app, IH. split.
    + intros [[b Hb]|(a & b & H)].
      * exists "", b. exact Hb.
      * exists (String c a), b. cbn. rewrite H. reflexivity.
    + intros (a & b & H). destruct a as [|x a].
      * left. exists b. exact H.
      * right. cbn in H. injection H as _ H. exists a, b. exact H.
Qed.

(** A string that includes [sub] includes every part of [sub]. *)
Lemma includes_part (front part back s : string) :
  Js.includes (front ++ part ++ back) s = true -> Js.includes part s = true.
Proof.
  rewrite !includes_occurs. intros (a & b & ->).
  exists (a ++ front), (back ++ b).
  rewrite !append_assoc. reflexivity.
Qed.

(** ** The classifier *)

(** C3: the rebase branch of the classifier cannot be taken.  Every message
    that contains "Merge conflict during rebase, operation aborted" contains
    "conflict", which the first branch takes.  So the error the rebase step
    raises is reported by the generic conflict branch, while the error the
    stash-pop step raises, whose "Conflict" is capitalised, reaches its own
    branch. *)
Theorem rebase_report_is_unreachable :
  (forall error, classify error <> RebaseConflict)
  /\ classify (new_Error "Merge conflict during rebase, operation aborted.") = Conflict
  /\ classify (new_Error "Conflict applying stashed changes. Manual resolution needed.")
     = StashConflict.
Proof.
  split; [|split; vm_compute; reflexivity].
  intros error. unfold classify.
  destruct (Js.truthy (messageOf error)); [|discriminate].
  destruct (Js.includes "conflict" (messageOf error)) eqn:Hc.
  - rewrite orb_true_r. discriminate.
  - repeat match goal with
           | |- (if ?b then _ else _) <> _ => destruct b eqn:?; try discriminate
           end.
    exfalso.
    assert (H : Js.includes "conflict" (messageOf error) = true);
      [|rewrite H in Hc; discriminate].
    apply (includes_part "Merge " "conflict" " during rebase, operation aborted").
    assumption.
Qed.

(** ** The scheduler *)

(** C10.  With an interval of zero or fewer minutes [startAutoSync] installs
    no timer; with a timer already installed it changes nothing and emits
    nothing, so the timer and its interval stay as they were; and
    [stopAutoSync] without a timer changes nothing and emits nothing. *)
Theorem autoSync_start_stop_are_idempotent s :
  (commitInterval (settings s) <= 0 ->
   timers (final (startAutoSync s)) = timers s
   /\ syncInterval (final (startAutoSync s)) = syncInterval s)
  /\ (syncInterval s <> None ->
      final (startAutoSync s) = s /\ events (startAutoSync s) = [])
  /\ (syncInterval s = None ->
      final (stopAutoSync s) = s /\ events (stopAutoSync s) = []).
Proof.
  destruct_state s. split; [|split]; intros Hyp; cbn in Hyp.
  - remember (startAutoSync _) as o eqn:E.
    unfold startAutoSync in E. exec_in E no_special.
    all: subst o; try (split; reflexivity).
    apply Z.leb_gt in Heqb0. lia.
  - remember (startAutoSync _) as o eqn:E.
    unfold startAutoSync in E. exec_in E no_special.
    all: subst o; try (split; reflexivity).
    all: congruence.
  - subst. split; reflexivity.
Qed.

(** ** The flag, as a theorem about whole runs *)

(** C1.  A run that starts with the flag down ends with the flag down,
    whichever way it ends, and its effects are: some with the flag down,
    then some with the flag up, then some with the flag down, every git
    call being among those with the flag up. *)
Theorem syncVault_holds_flag_during_run_only env s :
  isSyncing s = false ->
  isSyncing (final (syncVault env s)) = false
  /\ SingleFlight (events (syncVault env s)).
Proof.
  intros H. destruct (syncVault_idle env s H) as [Hf Hi].
  split; [exact Hf | exact (idle_spec _ Hi)].
Qed.

(** ** The theorems at sample runs *)

Ltac by_run := vm_compute; first [ reflexivity | in_search ].

Lemma syncVault_holds_flag_during_run_only_witness :
  isSyncing Sample.plugin = false
  /\ isSyncing (final (syncVault Sample.edited Sample.plugin)) = false.
Proof.
  split; [reflexivity|].
  exact (proj1 (syncVault_holds_flag_during_run_only Sample.edited Sample.plugin eq_refl)).
Defined.

Lemma rebase_conflict_is_aborted_once_witness :
  In (EGit (Status AfterFetch) (Resolved (VStatus Sample.behindByTwo)))
     (log (syncVault Sample.rebaseConflicts Sample.plugin))
  /\ Js.truthyOpt (current Sample.behindByTwo) = true
  /\ Js.truthyOpt (tracking Sample.behindByTwo) = true
  /\ behind Sample.behindByTwo > 0
  /\ count isRebase (log (syncVault Sample.rebaseConflicts Sample.plugin)) = 1%nat.
Proof.
  assert (H : In (EGit (Status AfterFetch) (Resolved (VStatus Sample.behindByTwo)))
                 (log (syncVault Sample.rebaseConflicts Sample.plugin))) by by_run.
  split; [exact H|]. split; [reflexivity|]. split; [reflexivity|]. split; [reflexivity|].
  exact (proj1 (rebase_conflict_is_aborted_once Sample.rebaseConflicts Sample.plugin
                  Sample.behindByTwo H eq_refl eq_refl eq_refl)).
Defined.

Lemma no_branch_aborts_as_generic_error_witness :
  In (EGit (Status AfterFetch) (Resolved (VStatus Sample.detached)))
     (log (syncVault Sample.detachedHead Sample.plugin))
  /\ Js.truthyOpt (current Sample.detached) = false
  /\ forallb beforeRebase (gitOps (log (syncVault Sample.detachedHead Sample.plugin))) = true.
Proof.
  assert (H : In (EGit (Status AfterFetch) (Resolved (VStatus Sample.detached)))
                 (log (syncVault Sample.detachedHead Sample.plugin))) by by_run.
  split; [exact H|]. split; [reflexivity|].
  exact (proj1 (no_branch_aborts_as_generic_error Sample.detachedHead Sample.plugin
                  Sample.detached H eq_refl)).
Defined.

Lemma stash_failure_aborts_run_witness :
  In (EGit StashPush (Rejected Sample.diskFull))
     (log (syncVault Sample.stashFails Sample.plugin))
  /\ completion (syncVault Sample.stashFails Sample.plugin) = Return.
Proof.
  assert (H : In (EGit StashPush (Rejected Sample.diskFull))
                 (log (syncVault Sample.stashFails Sample.plugin))) by by_run.
  split; [exact H|].
  exact (proj1 (stash_failure_aborts_run Sample.stashFails Sample.plugin
                  Sample.diskFull H)).
Defined.

Lemma noop_stash_is_never_popped_witness :
  In (EGit StashPush (Resolved (VText "No local changes to save")))
     (log (syncVault Sample.stashNoop Sample.plugin))
  /\ stashCreated "No local changes to save" = false
  /\ stashed (final (syncVault Sample.stashNoop Sample.plugin)) = false.
Proof.
  assert (H : In (EGit StashPush (Resolved (VText "No local changes to save")))
                 (log (syncVault Sample.stashNoop Sample.plugin))) by by_run.
  split; [exact H|]. split; [reflexivity|].
  exact (proj1 (noop_stash_is_never_popped Sample.stashNoop Sample.plugin
                  "No local changes to save" H eq_refl)).
Defined.

Lemma nothing_staged_is_up_to_date_witness :
  In (EGit (Status Final) (Resolved (VStatus Sample.clean)))
     (log (syncVault Sample.quiet Sample.plugin))
  /\ filesToCommit Sample.clean = []
  /\ completion (syncVault Sample.quiet Sample.plugin) = Normal tt.
Proof.
  assert (H : In (EGit (Status Final) (Resolved (VStatus Sample.clean)))
                 (log (syncVault Sample.quiet Sample.plugin))) by by_run.
  split; [exact H|]. split; [reflexivity|].
  exact (proj1 (nothing_staged_is_up_to_date Sample.quiet Sample.plugin
                  Sample.clean H eq_refl)).
Defined.

Lemma commit_without_upstream_is_not_pushed_witness :
  In (EGit (Commit "Vault auto-sync: 2025-01-01 10:00:00") (Resolved VVoid))
     (log (syncVault Sample.noUpstream Sample.plugin))
  /\ In (EGit (Status Final) (Resolved (VStatus Sample.stagedLocalBranch)))
        (log (syncVault Sample.noUpstream Sample.plugin))
  /\ Js.truthyOpt (tracking Sample.stagedLocalBranch) = false
  /\ completion (syncVault Sample.noUpstream Sample.plugin) = Normal tt.
Proof.
  assert (Hm : In (EGit (Commit "Vault auto-sync: 2025-01-01 10:00:00") (Resolved VVoid))
                  (log (syncVault Sample.noUpstream Sample.plugin))) by by_run.
  assert (H : In (EGit (Status Final) (Resolved (VStatus Sample.stagedLocalBranch)))
                 (log (syncVault Sample.noUpstream Sample.plugin))) by by_run.
  split; [exact Hm|]. split; [exact H|]. split; [reflexivity|].
  exact (proj1 (commit_without_upstream_is_not_pushed Sample.noUpstream Sample.plugin
                  Sample.stagedLocalBranch _ Hm H eq_refl)).
Defined.

Lemma settings_saved_on_success_only_witness :
  (exists e, In (caught e) (log (syncVault Sample.fetchFails Sample.plugin)))
  /\ savedData (final (syncVault Sample.fetchFails Sample.plugin))
     = savedData Sample.plugin.
Proof.
  assert (H : exists e, In (caught e) (log (syncVault Sample.fetchFails Sample.plugin)))
    by (exists Sample.offline; by_run).
  split; [exact H|].
  exact (proj1 (proj1 (settings_saved_on_success_only Sample.fetchFails Sample.plugin)
                  (or_introl H))).
Defined.

Lemma autoSync_start_stop_are_idempotent_witness :
  commitInterval (settings Sample.zeroInterval) <= 0
  /\ timers (final (startAutoSync Sample.zeroInterval)) = timers Sample.zeroInterval
  /\ syncInterval Sample.ticking <> None
  /\ final (startAutoSync Sample.ticking) = Sample.ticking
  /\ syncInterval Sample.plugin = None
  /\ final (stopAutoSync Sample.plugin) = Sample.plugin.
Proof.
  split; [cbn; lia|].
  split; [apply (autoSync_start_stop_are_idempotent Sample.zeroInterval); cbn; lia|].
  split; [discriminate|].
  split; [apply (autoSync_start_stop_are_idempotent Sample.ticking); discriminate|].
  split; [reflexivity|].
  apply (autoSync_start_stop_are_idempotent Sample.plugin). reflexivity.
Defined.

(** ** Where the design's words and the code part *)

(** C2, at a run where a local edit is stashed and the rebase conflicts: the
    stash exists and is left in place, and nothing shown to the user speaks
    of it. *)
Lemma rebase_conflict_leaves_stash_unreported :
  In (EGit (Status AfterFetch) (Resolved (VStatus Sample.behindByTwo)))
     (log (syncVault Sample.rebaseConflicts Sample.plugin))
  /\ Js.truthyOpt (tracking Sample.behindByTwo) = true
  /\ behind Sample.behindByTwo > 0
  /\ In (EGit (Rebase "origin/main") (Rejected Sample.conflict))
        (log (syncVault Sample.rebaseConflicts Sample.plugin))
  /\ messageIncludes "CONFLICT" Sample.conflict = true
  /\ stashed (final (syncVault Sample.rebaseConflicts Sample.plugin)) = true
  /\ ~ StashReported (log (syncVault Sample.rebaseConflicts Sample.plugin)).
Proof.
  repeat split; try by_run.
  unfold StashReported. vm_compute. discriminate.
Qed.

(** C4, at a run with no branch checked out: the error is reported by the
    generic branch of the classifier, not as a configuration error. *)
Lemma no_branch_is_not_a_configuration_error :
  In (EGit (Status AfterFetch) (Resolved (VStatus Sample.detached)))
     (log (syncVault Sample.detachedHead Sample.plugin))
  /\ Js.truthyOpt (current Sample.detached) = false
  /\ In (caught notOnBranch) (log (syncVault Sample.detachedHead Sample.plugin))
  /\ kindOf (classify notOnBranch) <> ConfigurationError
  /\ lastStatus (log (syncVault Sample.detachedHead Sample.plugin)) = Some "Sync Error".
Proof.
  repeat split; try by_run.
  vm_compute. discriminate.
Qed.

(** C3, at the run of [Sample.rebaseConflicts]: the conflict raised by the
    rebase step ends with the generic "Conflict!" in the status bar. *)
Lemma rebase_conflict_gets_generic_report :
  lastStatus (log (syncVault Sample.rebaseConflicts Sample.plugin)) = Some "Conflict!"
  /\ In (ENotice Notification.ConflictOccurred (Some 10000))
        (log (syncVault Sample.rebaseConflicts Sample.plugin)).
Proof.
  split; by_run.
Qed.

(** * Further properties of the code *)

(** ** The two file filters *)

(** Whatever [syncVault] would commit counts as a local change: a status
    with a file to commit has local changes. *)
Theorem files_to_commit_are_local_changes st :
  filesToCommit st <> [] -> hasLocalChanges st = true.
Proof.
  unfold filesToCommit, hasLocalChanges. intros H.
  destruct (filter _ (files st)) as [|f l] eqn:Hf; [congruence|].
  assert (Hin : In f (filter
                        (fun file => negb (index file =? " ")%string
                                     && negb (index file =? "?")%string)
                        (files st))) by (rewrite Hf; left; reflexivity).
  apply filter_In in Hin. destruct Hin as [Hin Hp].
  apply existsb_exists. exists f. split; [exact Hin|].
  rewrite Hp. apply orb_true_r.
Qed.

Lemma files_to_commit_are_local_changes_witness :
  filesToCommit Sample.staged <> [] /\ hasLocalChanges Sample.staged = true.
Proof.
  assert (H : filesToCommit Sample.staged <> []) by (vm_compute; discriminate).
  split; [exact H|]. exact (files_to_commit_are_local_changes Sample.staged H).
Defined.

(** Untracked files are local changes (they are stashed) without being
    files to commit: the converse of the above fails. *)
Theorem untracked_files_are_stashed_but_not_counted st :
  files st <> [] ->
  Forall (fun f => index f = "?" /\ working_dir f = "?") (files st) ->
  hasLocalChanges st = true /\ filesToCommit st = [].
Proof.
  unfold hasLocalChanges, filesToCommit.
  destruct (files st) as [|f l]; [congruence|]. intros _ H.
  split.
  - inversion H as [|? ? [Hi Hw] _]; subst. cbn [existsb].
    rewrite Hw. reflexivity.
  - induction H as [|g l' [Hi Hw] _ IH]; [reflexivity|].
    cbn [filter]. rewrite Hi. exact IH.
Qed.

Lemma untracked_files_are_stashed_but_not_counted_witness :
  hasLocalChanges
    {| files := [Sample.note "?" "?"]; current := Some "main"; tracking := None;
       ahead := 0; behind := 0 |} = true.
Proof.
  refine (proj1 (untracked_files_are_stashed_but_not_counted _ _ _)).
  - discriminate.
  - repeat constructor.
Defined.

(** The first revision chose the files to commit by the working-tree
    column: once everything is staged and the working tree is clean, it
    finds nothing to commit, while the second revision finds every staged
    file. *)
Theorem first_revision_skips_staged_files st :
  Forall (fun f => working_dir f = " " /\ index f <> " " /\ index f <> "?") (files st) ->
  filesToCommit_v1 st = [] /\ filesToCommit st = files st.
Proof.
  unfold filesToCommit_v1, filesToCommit.
  induction (files st) as [|f l IH]; intros H; [split; reflexivity|].
  inversion H as [|? ? (Hw & Hi & Hq) Hl]; subst.
  destruct (IH Hl) as [IH1 IH2]. cbn [filter].
  rewrite Hw. cbn. rewrite IH1. split; [reflexivity|].
  apply String.eqb_neq in Hi, Hq. rewrite Hi, Hq. cbn. rewrite IH2. reflexivity.
Qed.

Lemma first_revision_skips_staged_files_witness :
  filesToCommit_v1 Sample.staged = [] /\ filesToCommit Sample.staged = files Sample.staged.
Proof.
  apply (first_revision_skips_staged_files Sample.staged).
  repeat constructor; discriminate.
Defined.

(** ** [handleSyncError] *)





(** ** The scheduler, started and stopped *)



Lemma filter_fresh (id : positive) (ts : list (positive * Z)) :
  Forall (fun t => (fst t < id)%positive) ts ->
  filter (fun t => negb (Pos.eqb (fst t) id)) ts = ts.
Proof.
  induction 1 as [|t ts Ht _ IH]; [reflexivity|].
  cbn [filter]. destruct (Pos.eqb_spec (fst t) id) as [Heq|_]; [lia|].
  cbn. rewrite IH. reflexivity.
Qed.

(** Stopping after starting gives the host its timers back: the timer that
    [startAutoSync] installed is the one [stopAutoSync] clears, and no handle
    is kept. *)
Theorem stopAutoSync_undoes_startAutoSync s :
  syncInterval s = None ->
  git s = true ->
  commitInterval (settings s) > 0 ->
  freshHandles s ->
  let r := stopAutoSync (final (startAutoSync s)) in
  syncInterval (final r) = None
  /\ timers (final r) = timers s
  /\ In (EClearInterval (nextTimer s)) (log r).
Proof.
  intros H1 H2 Hpos Hfresh r. subst r. destruct_state s.
  unfold freshHandles in Hfresh. cbn in H1, H2, Hpos, Hfresh. subst.
  remember (startAutoSync _) as o eqn:E.
  unfold startAutoSync in E. exec_in E no_special.
  all: subst o.
  - apply Z.leb_le in Heqb. lia.
  - simpl_state. remember (stopAutoSync _) as o eqn:E.
    unfold stopAutoSync in E. exec_in E no_special. subst o.
    lists. simpl_state. cbn [filter fst]. rewrite Pos.eqb_refl. cbn [negb].
    rewrite (filter_fresh _ _ Hfresh). repeat split. in_list.
Qed.

Lemma stopAutoSync_undoes_startAutoSync_witness :
  freshHandles Sample.plugin
  /\ timers (final (stopAutoSync (final (startAutoSync Sample.plugin)))) = [].
Proof.
  assert (H : freshHandles Sample.plugin) by constructor.
  split; [exact H|].
  exact (proj1 (proj2
           (stopAutoSync_undoes_startAutoSync Sample.plugin eq_refl eq_refl eq_refl H))).
Defined.



(** The auto-sync toggle persists its value.  Switched off, or switched on
    while git is not ready, it leaves the plugin without a timer handle;
    switched on with git ready while a timer runs, it keeps that timer and
    installs no second one. *)
Theorem autoSync_toggle_persists_and_schedules value s :
  let r := onAutoSyncToggled value s in
  autoSync (savedData (final r)) = value
  /\ savedData (final r) = settings (final r)
  /\ (value && git s = false -> syncInterval (final r) = None)
  /\ (forall h, value && git s = true -> syncInterval s = Some h ->
      syncInterval (final r) = Some h /\ timers (final r) = timers s).
Proof.
  intros r. subst r. destruct_state s.
  remember (onAutoSyncToggled _ _) as o eqn:E.
  unfold onAutoSyncToggled, stopAutoSync, startAutoSync in E. exec_in E no_special.
  all: subst o; simpl_state.
  all: split; [reflexivity|]; split; [reflexivity|]; split.
  all: try (intros Hv; try reflexivity; congruence).
  all: intros h Hv Hh; try congruence.
  all: injection Hh as <-; split; reflexivity.
Qed.

Lemma autoSync_toggle_persists_and_schedules_witness :
  syncInterval (final (onAutoSyncToggled false Sample.ticking)) = None
  /\ syncInterval (final (onAutoSyncToggled true Sample.ticking)) = Some 1%positive.
Proof.
  split.
  - apply (autoSync_toggle_persists_and_schedules false Sample.ticking).
    reflexivity.
  - destruct (autoSync_toggle_persists_and_schedules true Sample.ticking)
      as (_ & _ & _ & Hkept).
    apply (Hkept 1%positive); reflexivity.
Defined.

(** ** The three guards of [syncVault] *)

(** Called while a run is in progress, [syncVault] returns at once: the
    plugin is exactly as before, and the only effects are the "already in
    progress" notice and its console line. *)
Theorem syncVault_while_busy_does_nothing env s :
  isSyncing s = true ->
  let r := syncVault env s in
  completion r = Return
  /\ final r = s
  /\ log r = [ENotice Notification.AlreadyInProgress None;
              EConsole Log Diagnostic.SkippingAlreadyInProgress None].
Proof.
  intros H r. subst r. destruct_state s. cbn in H. subst.
  repeat split.
Qed.

Lemma syncVault_while_busy_does_nothing_witness :
  isSyncing (set_isSyncing true Sample.plugin) = true
  /\ final (syncVault Sample.edited (set_isSyncing true Sample.plugin))
     = set_isSyncing true Sample.plugin.
Proof.
  split; [reflexivity|].
  exact (proj1 (proj2 (syncVault_while_busy_does_nothing Sample.edited
                         (set_isSyncing true Sample.plugin) eq_refl))).
Defined.

(** Frame of the [try] block: it never touches the git handle, the timers
    or the settings tab's callback. *)
Lemma commit_frame env cb s :
  let o := syncVault_commit env cb s in
  git (final o) = git s /\ syncInterval (final o) = syncInterval s
  /\ timers (final o) = timers s /\ nextTimer (final o) = nextTimer s
  /\ onExternalSettingsChange (final o) = onExternalSettingsChange s.
Proof.
  intros o. subst o. destruct_state s.
  remember (syncVault_commit _ _ _) as o eqn:E.
  unfold syncVault_commit in E. exec_in E no_special.
  all: subst o; repeat split.
Qed.

Lemma try_frame env s :
  let o := syncVault_try env s in
  git (final o) = git s /\ syncInterval (final o) = syncInterval s
  /\ timers (final o) = timers s /\ nextTimer (final o) = nextTimer s
  /\ onExternalSettingsChange (final o) = onExternalSettingsChange s.
Proof.
  intros o. subst o. destruct_state s.
  remember (syncVault_try _ _) as o eqn:E.
  unfold syncVault_try in E. exec_in E ltac:(fun x => tail_commit commit_frame x).
  all: subst o; simpl_state; try (repeat split; fail).
  all: exact F.
Qed.

(** The first call of the [try] block is the initial status. *)
Lemma try_starts_with_status env s :
  exists x rest, log (syncVault_try env s) = EGit (Status Initial) x :: rest.
Proof.
  destruct_state s.
  remember (syncVault_try _ _) as o eqn:E.
  unfold syncVault_try in E. exec_in E no_special.
  all: subst o; lists; eexists; eexists; reflexivity.
Qed.

Ltac tail_try_frame x :=
  lazymatch x with
  | syncVault_try ?env ?s =>
      let F := fresh "F" in
      let G := fresh "G" in
      let K := fresh "K" in
      pose proof (try_frame env s) as F;
      pose proof (try_starts_with_status env s) as G;
      pose proof (try_held env s eq_refl) as K;
      destruct_outcome x; simpl_in F; simpl_in G; simpl_in K
  end.

(** With no git handle and a vault that is not on the local filesystem,
    [syncVault] gives up before anything else: no git call, the flag never
    raised, git still missing, "Error: Not local vault" in the status bar. *)
Theorem syncVault_without_local_vault_gives_up env s :
  isSyncing s = false ->
  git s = false ->
  basePath env = None ->
  let r := syncVault env s in
  completion r = Return
  /\ gitOps (log r) = []
  /\ forallb (fun o => negb (fst o)) (events r) = true
  /\ git (final r) = false
  /\ In (ENotice Notification.GitNotInitialized None) (log r)
  /\ In (ENotice Notification.NotLocalVault None) (log r)
  /\ lastStatus (log r) = Some "Error: Not local vault"
  /\ settings (final r) = settings s /\ savedData (final r) = savedData s.
Proof.
  intros H1 H2 H3 r. subst r. destruct_state s. cbn in H1, H2. subst.
  remember (syncVault _ _) as o eqn:E.
  unfold syncVault in E. exec_in E tail_try_frame.
  all: try congruence.
  all: subst o; lists; repeat split; in_list.
Qed.

Lemma syncVault_without_local_vault_gives_up_witness :
  isSyncing Sample.unready = false
  /\ git Sample.unready = false
  /\ basePath Sample.mobile = None
  /\ gitOps (log (syncVault Sample.mobile Sample.unready)) = [].
Proof.
  split; [reflexivity|]. split; [reflexivity|]. split; [reflexivity|].
  exact (proj1 (proj2 (syncVault_without_local_vault_gives_up Sample.mobile Sample.unready
                         eq_refl eq_refl eq_refl))).
Defined.

(** With no repository URL configured, and a git handle that is there or
    can be created, [syncVault] gives up before raising the flag: no git
    call, nothing saved, "Error: Repo URL not set" in the status bar. *)
Theorem syncVault_without_repoUrl_gives_up env s :
  isSyncing s = false ->
  git s = true \/ basePath env <> None ->
  repoUrl (settings s) = "" ->
  let r := syncVault env s in
  completion r = Return
  /\ gitOps (log r) = []
  /\ forallb (fun o => negb (fst o)) (events r) = true
  /\ In (ENotice Notification.RepoUrlNotConfigured None) (log r)
  /\ lastStatus (log r) = Some "Error: Repo URL not set"
  /\ settings (final r) = settings s /\ savedData (final r) = savedData s.
Proof.
  intros H1 H3 H2 r. subst r. destruct_state s. cbn in H1, H2, H3. subst.
  remember (syncVault _ _) as o eqn:E.
  unfold syncVault in E. exec_in E tail_try_frame.
  all: try (rewrite H2 in *; discriminate).
  all: try (destruct H3; [subst; discriminate | congruence]).
  all: subst o; lists; repeat split; in_list.
Qed.

Lemma syncVault_without_repoUrl_gives_up_witness :
  isSyncing Sample.zeroUrl = false
  /\ (git Sample.zeroUrl = true \/ basePath Sample.quiet <> None)
  /\ repoUrl (settings Sample.zeroUrl) = ""
  /\ gitOps (log (syncVault Sample.quiet Sample.zeroUrl)) = [].
Proof.
  split; [reflexivity|]. split; [left; reflexivity|]. split; [reflexivity|].
  exact (proj1 (proj2 (syncVault_without_repoUrl_gives_up Sample.quiet Sample.zeroUrl
                         eq_refl (or_introl eq_refl) eq_refl))).
Defined.

(** With no git handle but a local vault and a repository URL, [syncVault]
    re-creates the handle and goes on with the run: the handle is there
    afterwards and the initial status was asked for. *)
Theorem syncVault_reinitializes_git env s base :
  isSyncing s = false ->
  git s = false ->
  basePath env = Some base ->
  repoUrl (settings s) <> "" ->
  let r := syncVault env s in
  git (final r) = true
  /\ In (ENotice Notification.GitNotInitialized None) (log r)
  /\ In (EConsole Log (Diagnostic.InitializingGit base) None) (log r)
  /\ In (Status Initial) (gitOps (log r))
  /\ isSyncing (final r) = false.
Proof.
  intros H1 H2 H3 H4 r. subst r. destruct_state s. cbn in H1, H2, H4. subst.
  remember (syncVault _ _) as o eqn:E.
  unfold syncVault in E. exec_in E tail_try_frame.
  all: try congruence.
  all: try (destruct (repoUrl cfg); [congruence | discriminate]).
  all: subst o; destruct G as (x & rest & G); lists_app; rewrite G; lists.
  all: destruct F as (-> & _); simpl_state; injection H3 as <-.
  all: repeat split; try reflexivity; in_hyps.
Qed.

Lemma syncVault_reinitializes_git_witness :
  isSyncing Sample.unready = false
  /\ git Sample.unready = false
  /\ basePath Sample.quiet = Some "/home/me/vault"
  /\ repoUrl (settings Sample.unready) <> ""
  /\ git (final (syncVault Sample.quiet Sample.unready)) = true.
Proof.
  assert (H : repoUrl (settings Sample.unready) <> "") by discriminate.
  split; [reflexivity|]. split; [reflexivity|]. split; [reflexivity|].
  split; [exact H|].
  exact (proj1 (syncVault_reinitializes_git Sample.quiet Sample.unready _
                  eq_refl eq_refl eq_refl H)).
Defined.

(** A run never touches the scheduler: the timer handle and the host's
    timers are as before, whatever the run does. *)
Theorem syncVault_leaves_scheduler_alone env s :
  let r := syncVault env s in
  syncInterval (final r) = syncInterval s
  /\ timers (final r) = timers s
  /\ nextTimer (final r) = nextTimer s.
Proof.
  intros r. subst r. destruct_state s.
  remember (syncVault _ _) as o eqn:E.
  unfold syncVault in E.
  exec_in E ltac:(fun x => tail_try try_frame x).
  all: subst o; simpl_state; try (repeat split; fail).
  all: destruct F as (_ & -> & -> & -> & _); repeat split.
Qed.



(** ** A clean working tree *)

Lemma try_clean_tree env s st :
  let o := syncVault_try env s in
  stashed s = false ->
  In (EGit (Status Initial) (Resolved (VStatus st))) (log o) ->
  hasLocalChanges st = false ->
  stashed (final o) = false
  /\ ~ In StashPush (gitOps (log o))
  /\ ~ In StashPop (gitOps (log o)).
Proof.
  intros o Hs. subst o. destruct_state s. cbn in Hs. subst.
  remember (syncVault_try _ _) as o eqn:E.
  unfold syncVault_try in E. exec_in E tail_commit_unstashed.
  all: subst o; lists; intros H Hclean; split_or H; try discriminate H.
  all: try (apply (forallb_In _ _ _ F) in H; discriminate H).
  all: injection H as ->; try congruence.
  all: simpl_state; split; [reflexivity || apply G|].
  all: split; intros H; split_or H; try discriminate H.
  all: try (apply G in H; exact H).
  all: exact (not_in_none StashPush inCommit commit_event _ commit_event_git eq_refl F H).
Qed.

Ltac tail_try_clean st x :=
  lazymatch x with
  | syncVault_try ?env ?s =>
      let F := fresh "F" in
      pose proof (try_clean_tree env s st eq_refl) as F;
      destruct_outcome x; simpl_in F
  end.

(** When the initial status shows no local change, the run makes no stash
    call at all, neither push nor pop, and [stashed] stays false. *)
Theorem clean_tree_is_never_stashed env s st :
  let r := syncVault env s in
  In (EGit (Status Initial) (Resolved (VStatus st))) (log r) ->
  hasLocalChanges st = false ->
  stashed (final r) = false
  /\ ~ In StashPush (gitOps (log r))
  /\ ~ In StashPop (gitOps (log r)).
Proof.
  intros r. subst r. destruct_state s.
  remember (syncVault _ _) as o eqn:E.
  unfold syncVault in E.
  exec_in E ltac:(fun x => tail_try_clean st x).
  all: subst o; lists_app; intros H Hclean; split_or H; try discriminate H.
  all: destruct (F H Hclean) as (Hs & Hpush & Hpop).
  all: simpl_state; split; [exact Hs|].
  all: split; intros Hin; rewrite ?in_app_iff in Hin; cbn [In] in Hin; split_or Hin;
    try discriminate Hin; auto.
Qed.

Lemma clean_tree_is_never_stashed_witness :
  In (EGit (Status Initial) (Resolved (VStatus Sample.clean)))
     (log (syncVault Sample.quiet Sample.plugin))
  /\ hasLocalChanges Sample.clean = false
  /\ stashed (final (syncVault Sample.quiet Sample.plugin)) = false.
Proof.
  assert (H : In (EGit (Status Initial) (Resolved (VStatus Sample.clean)))
                 (log (syncVault Sample.quiet Sample.plugin))) by by_run.
  split; [exact H|]. split; [reflexivity|].
  exact (proj1 (clean_tree_is_never_stashed Sample.quiet Sample.plugin Sample.clean
                  H eq_refl)).
Defined.

(** ** A successful push *)

Lemma commit_pushed env cb s :
  let o := syncVault_commit env cb s in
  In (EGit Push (Resolved VVoid)) (log o) ->
  completion o = Normal tt
  /\ count isCommit (log o) = 1%nat
  /\ count isPush (log o) = 1%nat
  /\ In (EGit (Commit (Js.replace "{{date}}" (momentAtCommit env)
                         (commitMessage (settings s))))
              (Resolved VVoid)) (log o)
  /\ settings (final o) = with_lastSync (momentAtSync env) (settings s)
  /\ savedData (final o) = settings (final o)
  /\ In (ENotice Notification.Synced None) (log o)
  /\ lastStatus (log o) = Some "Synced".
Proof.
  intros o. subst o. destruct_state s.
  remember (syncVault_commit _ _ _) as o eqn:E.
  unfold syncVault_commit in E. exec_in E no_special.
  all: subst o; lists; intros H; split_or H; try discriminate H.
  all: simpl_state; repeat split; in_list.
Qed.

Lemma try_pushed env s :
  let o := syncVault_try env s in
  In (EGit Push (Resolved VVoid)) (log o) ->
  completion o = Normal tt
  /\ count isCommit (log o) = 1%nat
  /\ count isPush (log o) = 1%nat
  /\ In (EGit (Commit (Js.replace "{{date}}" (momentAtCommit env)
                         (commitMessage (settings s))))
              (Resolved VVoid)) (log o)
  /\ settings (final o) = with_lastSync (momentAtSync env) (settings s)
  /\ savedData (final o) = settings (final o)
  /\ In (ENotice Notification.Synced None) (log o)
  /\ lastStatus (log o) = Some "Synced".
Proof.
  intros o. subst o. destruct_state s.
  remember (syncVault_try _ _) as o eqn:E.
  unfold syncVault_try in E. exec_in E ltac:(fun x => tail_commit commit_pushed x).
  all: subst o; lists; intros H; split_or H; try discriminate H.
  all: destruct (F H) as (Hc & Hn & Hp & Hm & Hset & Hsav & Hin & Hl).
  all: simpl_state; rewrite Hl, Hn, Hp; repeat split; auto; in_hyps.
Qed.

(** A push that succeeds is the only push of the run and follows its only
    commit, whose message is the template with the first date placeholder
    filled in; the run then writes [lastSync], persists the settings and
    ends as "Synced". *)
Theorem successful_push_ends_as_synced env s :
  let r := syncVault env s in
  In (EGit Push (Resolved VVoid)) (log r) ->
  completion r = Normal tt
  /\ count isCommit (log r) = 1%nat
  /\ count isPush (log r) = 1%nat
  /\ In (EGit (Commit (Js.replace "{{date}}" (momentAtCommit env)
                         (commitMessage (settings s))))
              (Resolved VVoid)) (log r)
  /\ lastSync (settings (final r)) = momentAtSync env
  /\ savedData (final r) = settings (final r)
  /\ In (ENotice Notification.Synced None) (log r)
  /\ lastStatus (log r) = Some "Synced".
Proof.
  intros r. subst r. destruct_state s.
  remember (syncVault _ _) as o eqn:E.
  unfold syncVault in E. exec_in E ltac:(fun x => tail_try try_pushed x).
  all: subst o; lists_app; intros H; split_or H; try discriminate H.
  all: destruct (F H) as (Hc & Hn & Hp & Hm & Hset & Hsav & Hin & Hl);
    try discriminate Hc.
  all: simpl_state; rewrite Hl, Hn, Hp; subst cfg0 saved0; repeat split; auto; in_hyps.
Qed.

Lemma successful_push_ends_as_synced_witness :
  In (EGit Push (Resolved VVoid)) (log (syncVault Sample.edited Sample.plugin))
  /\ In (EGit (Commit "Vault auto-sync: 2025-01-01 10:00:00") (Resolved VVoid))
        (log (syncVault Sample.edited Sample.plugin)).
Proof.
  assert (H : In (EGit Push (Resolved VVoid))
                 (log (syncVault Sample.edited Sample.plugin))) by by_run.
  split; [exact H|].
  exact (proj1 (proj2 (proj2 (proj2
           (successful_push_ends_as_synced Sample.edited Sample.plugin H))))).
Defined.

(** ** A stash pop that fails *)

Lemma count_gitOps p (t : list Event) :
  count p t = List.length (filter p (gitOps t)).
Proof.
  induction t as [|e t IH]; [reflexivity|].
  destruct e; cbn [count gitOps filter]; auto.
  destruct (p op); cbn [List.length]; rewrite IH; reflexivity.
Qed.

Lemma commit_pop_fails env cb s e :
  let o := syncVault_commit env cb s in
  In (EGit StashPop (Rejected e)) (log o) ->
  gitOps (log o) = [StashPop]
  /\ stashed (final o) = true
  /\ settings (final o) = settings s
  /\ savedData (final o) = savedData s
  /\ (messageIncludes "conflict" e = true ->
      completion o = Throw popConflict
      /\ In (ENotice Notification.StashPopConflict None) (log o)
      /\ lastStatus (log o) = Some "Stash Conflict!")
  /\ (messageIncludes "conflict" e = false ->
      completion o = Throw e
      /\ In (ENotice Notification.StashPopFailed None) (log o)
      /\ lastStatus (log o) = None).
Proof.
  intros o. subst o. destruct_state s.
  remember (syncVault_commit _ _ _) as o eqn:E.
  unfold syncVault_commit in E. exec_in E no_special.
  all: subst o; lists; intros H; split_or H; try discriminate H.
  all: injection H as ->; simpl_state.
  all: repeat split; try congruence; try in_list.
Qed.

Lemma try_pop_fails env s e :
  let o := syncVault_try env s in
  In (EGit StashPop (Rejected e)) (log o) ->
  count afterPop (log o) = 0%nat
  /\ stashed (final o) = true
  /\ (messageIncludes "conflict" e = true ->
      completion o = Throw popConflict
      /\ In (ENotice Notification.StashPopConflict None) (log o))
  /\ (messageIncludes "conflict" e = false ->
      completion o = Throw e
      /\ In (ENotice Notification.StashPopFailed None) (log o)).
Proof.
  intros o. subst o. destruct_state s.
  remember (syncVault_try _ _) as o eqn:E.
  unfold syncVault_try in E.
  exec_in E ltac:(fun x => tail_commit (fun env cb s => commit_pop_fails env cb s e) x).
  all: subst o; lists; intros H; split_or H; try discriminate H.
  all: destruct (F H) as (Hops & Hs & _ & _ & Hyes & Hno).
  all: simpl_state; rewrite count_gitOps, Hops; repeat split; auto.
  all: match goal with
       | Hm : messageIncludes _ _ = true |- _ => destruct (Hyes Hm) as (? & ? & ?)
       | Hm : messageIncludes _ _ = false |- _ => destruct (Hno Hm) as (? & ? & ?)
       end; try assumption; in_hyps.
Qed.

Ltac tail_try_pop x :=
  lazymatch x with
  | syncVault_try ?env ?s =>
      let F := fresh "F" in
      let G := fresh "G" in
      pose proof (fun e => try_pop_fails env s e) as F;
      pose proof (try_saves_on_success env s) as G;
      destruct_outcome x; simpl_in F; simpl_in G
  end.

(** When popping the stash fails with a conflict, the run stops there: no
    stage, commit or push follows and nothing is saved.  The user is told
    that the stash is likely still available, the error reaches the
    top-level handler, which reports it by its stash-conflict branch, and the
    run ends with "Stash Conflict!" in the status bar. *)
Theorem stash_pop_conflict_is_reported env s e :
  let r := syncVault env s in
  In (EGit StashPop (Rejected e)) (log r) ->
  messageIncludes "conflict" e = true ->
  count afterPop (log r) = 0%nat
  /\ stashed (final r) = true
  /\ In (ENotice Notification.StashPopConflict None) (log r)
  /\ StashReported (log r)
  /\ In (caught popConflict) (log r)
  /\ classify popConflict = StashConflict
  /\ lastStatus (log r) = Some "Stash Conflict!"
  /\ savedData (final r) = savedData s
  /\ completion r = Normal tt.
Proof.
  intros r. subst r. destruct_state s.
  remember (syncVault _ _) as o eqn:E.
  unfold syncVault in E. exec_in E tail_try_pop.
  all: subst o; lists_app; intros H Hconf; split_or H; try discriminate H.
  all: destruct (F _ H) as (Hc & Hs & Hyes & _); destruct (Hyes Hconf) as (Hthrow & Hn).
  all: try discriminate Hthrow.
  all: unfold popConflict, new_Error in *; injection Hthrow as Hthrow; subst; settle_eqns.
  all: destruct G as (_ & -> & _).
  all: simpl_state; rewrite Hc; repeat split; try reflexivity;
    try (cbn [In]; in_hyps).
  all: unfold StashReported; apply existsb_exists;
    exists (ENotice Notification.StashPopConflict None);
    split; [cbn [In]; in_hyps|reflexivity].
Qed.

Lemma stash_pop_conflict_is_reported_witness :
  In (EGit StashPop (Rejected Sample.conflict))
     (log (syncVault Sample.popConflicts Sample.plugin))
  /\ messageIncludes "conflict" Sample.conflict = true
  /\ lastStatus (log (syncVault Sample.popConflicts Sample.plugin))
     = Some "Stash Conflict!".
Proof.
  assert (H : In (EGit StashPop (Rejected Sample.conflict))
                 (log (syncVault Sample.popConflicts Sample.plugin))) by by_run.
  split; [exact H|]. split; [reflexivity|].
  apply (stash_pop_conflict_is_reported Sample.popConflicts Sample.plugin
           Sample.conflict H eq_refl).
Defined.

(** ** The warning about a stash left behind *)

Lemma commit_never_warns env cb s :
  existsb isStashWarning (log (syncVault_commit env cb s)) = false.
Proof.
  remember (syncVault_commit _ _ _) as o eqn:E.
  unfold syncVault_commit in E. exec_in E no_special.
  all: subst o; reflexivity.
Qed.

Ltac tail_commit_warns x := tail_commit commit_never_warns x.

Lemma try_never_warns env s :
  existsb isStashWarning (log (syncVault_try env s)) = false.
Proof.
  remember (syncVault_try _ _) as o eqn:E.
  unfold syncVault_try in E. exec_in E tail_commit_warns.
  all: subst o; lists_app; rewrite ?existsb_app; try reflexivity.
  all: rewrite F; reflexivity.
Qed.

Lemma report_never_warns r d : isStashWarning (ENotice (noticeOf r) d) = false.
Proof. destruct r; reflexivity. Qed.

Ltac tail_try_warns x :=
  lazymatch x with
  | syncVault_try ?env ?s =>
      let F := fresh "F" in
      let G := fresh "G" in
      pose proof (try_never_warns env s) as F;
      pose proof (try_footprint env s) as G;
      destruct_outcome x; simpl_in F; simpl_in G
  end.

(** The user is warned that local changes are still stashed exactly when the
    run fails with the stash in place and the error's message speaks neither
    of a conflict while applying the stash nor of a merge conflict during the
    rebase. *)
Theorem stash_warning_exactly_when_stash_is_left env s :
  let r := syncVault env s in
  existsb isStashWarning (log r) = true <->
  exists e m,
    In (caught e) (log r)
    /\ stashed (final r) = true
    /\ err_message e = Some m
    /\ Js.includes "Conflict applying stashed changes" m = false
    /\ Js.includes "Merge conflict during rebase" m = false.
Proof.
  intros r. subst r. destruct_state s.
  remember (syncVault _ _) as o eqn:E.
  unfold syncVault in E. exec_in E tail_try_warns.
  all: subst o; lists_app; simpl_state; unfold caught in *.
  all: rewrite ?F, ?report_never_warns; cbn [isStashWarning orb]; split.
  all: try (intros H; discriminate H).
  all: try (intros _; reflexivity).
  all: try (intros (err & msg & H & Hs & Hm & HA & HB);
            rewrite ?in_app_iff in H; cbn [In] in H; split_or H; try discriminate H;
            try (apply (forallb_In _ _ _ G) in H; discriminate H);
            injection H as <-; simpl in Hm; try discriminate Hm; try discriminate Hs;
            injection Hm as <-; rewrite HA, HB in *; discriminate).
  all: intros _; do 2 eexists; split; [cbn [In]; in_hyps|].
  all: match goal with
       | Hn : negb _ = true |- _ =>
           apply negb_true_iff in Hn; apply orb_false_iff in Hn; destruct Hn
       end.
  all: repeat split; first [reflexivity | assumption].
Qed.

Lemma stash_warning_exactly_when_stash_is_left_witness :
  existsb isStashWarning (log (syncVault Sample.fetchFailsAfterStash Sample.plugin))
  = true.
Proof.
  apply (stash_warning_exactly_when_stash_is_left
           Sample.fetchFailsAfterStash Sample.plugin).
  exists Sample.offline, "fatal: Could not read from remote repository.".
  split; [by_run|]. repeat split; reflexivity.
Defined.

(** ** The order of the git calls *)

Lemma inOrder_weaken (k k' : nat) (ops : list GitOp) :
  (k <= k')%nat -> inOrder k' ops = true -> inOrder k ops = true.
Proof.
  destruct ops as [|op ops]; [reflexivity|].
  cbn [inOrder]. intros Hk H. apply andb_prop in H. destruct H as [H1 H2].
  apply Nat.ltb_lt in H1. rewrite H2, andb_true_r. apply Nat.ltb_lt. lia.
Qed.

Lemma inOrder_above (k : nat) (ops : list GitOp) :
  inOrder k ops = true -> forall op, In op ops -> (k < rank op)%nat.
Proof.
  revert k. induction ops as [|x ops IH]; intros k H op Hin; [destruct Hin|].
  cbn [inOrder] in H. apply andb_prop in H. destruct H as [H1 H2].
  apply Nat.ltb_lt in H1. destruct Hin as [<-|Hin]; [exact H1|].
  specialize (IH _ H2 _ Hin). lia.
Qed.

Lemma inOrder_NoDup (k : nat) (ops : list GitOp) :
  inOrder k ops = true -> NoDup (map rank ops).
Proof.
  revert k. induction ops as [|x ops IH]; intros k H; [constructor|].
  cbn [inOrder] in H. apply andb_prop in H. destruct H as [_ H2].
  cbn [map]. constructor; [|exact (IH _ H2)].
  intros Hin. apply in_map_iff in Hin. destruct Hin as (op & Hr & Hin).
  pose proof (inOrder_above _ _ H2 _ Hin). lia.
Qed.

Lemma commit_calls_in_order env cb s :
  inOrder 6 (gitOps (log (syncVault_commit env cb s))) = true.
Proof.
  remember (syncVault_commit _ _ _) as o eqn:E.
  unfold syncVault_commit in E. exec_in E no_special.
  all: subst o; reflexivity.
Qed.

Ltac tail_commit_order x := tail_commit commit_calls_in_order x.

Lemma try_calls_in_order env s :
  inOrder 0 (gitOps (log (syncVault_try env s))) = true.
Proof.
  remember (syncVault_try _ _) as o eqn:E.
  unfold syncVault_try in E. exec_in E tail_commit_order.
  all: subst o; lists_app; try reflexivity.
  all: cbn [gitOps app inOrder rank Nat.ltb Nat.leb andb].
  all: apply (inOrder_weaken _ 6); [lia | exact F].
Qed.

Ltac tail_try_order x := tail_try try_calls_in_order x.

(** The git calls of a run are made in one order: status, stash push, fetch,
    status, rebase, rebase abort, stash pop, add, status, commit, push.  A
    run makes some of them, never one of them twice and never a later one
    before an earlier one. *)
Theorem git_calls_follow_one_order env s :
  let r := syncVault env s in
  inOrder 0 (gitOps (log r)) = true
  /\ NoDup (map rank (gitOps (log r))).
Proof.
  intros r. subst r.
  assert (H : inOrder 0 (gitOps (log (syncVault env s))) = true).
  { destruct_state s.
    remember (syncVault _ _) as o eqn:E.
    unfold syncVault in E. exec_in E tail_try_order.
    all: subst o; lists_app; try reflexivity.
    all: rewrite ?gitOps_app; cbn [gitOps app]; rewrite ?app_nil_r; exact F. }
  split; [exact H | exact (inOrder_NoDup _ _ H)].
Qed.

(** ** Rebase: skipped, failed, not aborted *)

Lemma try_rebase_otherwise env s :
  let o := syncVault_try env s in
  (forall st, In (EGit (Status AfterFetch) (Resolved (VStatus st))) (log o) ->
     Js.truthyOpt (tracking st) && (behind st >? 0) = false ->
     count isRebase (log o) = 0%nat /\ count isRebaseAbort (log o) = 0%nat)
  /\ (forall u e, In (EGit (Rebase u) (Rejected e)) (log o) ->
        messageIncludes "CONFLICT" e = false ->
        completion o = Throw e
        /\ count isRebaseAbort (log o) = 0%nat
        /\ forallb beforeCommit (gitOps (log o)) = true
        /\ In (ENotice Notification.RebaseFailed None) (log o))
  /\ (forall e, In (EGit RebaseAbort (Rejected e)) (log o) ->
        completion o = Throw rebaseConflict
        /\ forallb beforeCommit (gitOps (log o)) = true
        /\ In (ENotice Notification.RebaseAbortFailed None) (log o)
        /\ In (EConsole Error Diagnostic.CouldNotAbortRebase (Some e)) (log o)).
Proof.
  intros o. subst o. destruct_state s.
  remember (syncVault_try _ _) as o eqn:E.
  unfold syncVault_try in E. exec_in E tail_commit_footprint.
  all: subst o; lists; split; [|split].
  all: try (intros st H Hskip; split_or H; try discriminate H;
            try (apply (forallb_In _ _ _ F) in H; discriminate H);
            injection H as <-).
  all: try (intros u err H Hconf; split_or H; try discriminate H;
            try (apply (forallb_In _ _ _ F) in H; discriminate H);
            injection H as <- <-).
  all: try (intros err H; split_or H; try discriminate H;
            try (apply (forallb_In _ _ _ F) in H; discriminate H);
            injection H as <-).
  all: try congruence.
  all: try (destruct (commit_count_rebase _ F) as [Hr Ha]; rewrite ?Hr, ?Ha).
  all: repeat split; try reflexivity; try in_list.
Qed.

Ltac tail_try_rebase_otherwise x :=
  lazymatch x with
  | syncVault_try ?env ?s =>
      let F := fresh "F" in
      let G := fresh "G" in
      pose proof (try_rebase_otherwise env s) as F;
      pose proof (try_footprint env s) as G;
      destruct_outcome x; simpl_in F; simpl_in G;
      destruct F as (Fskip & Ffail & Fabort)
  end.

(** Without a tracking branch, or with nothing to catch up on, the run makes
    no rebase call and no rebase-abort call. *)
Theorem rebase_needs_upstream_and_lag env s st :
  let r := syncVault env s in
  In (EGit (Status AfterFetch) (Resolved (VStatus st))) (log r) ->
  Js.truthyOpt (tracking st) && (behind st >? 0) = false ->
  count isRebase (log r) = 0%nat /\ count isRebaseAbort (log r) = 0%nat.
Proof.
  intros r. subst r. destruct_state s.
  remember (syncVault _ _) as o eqn:E.
  unfold syncVault in E. exec_in E tail_try_rebase_otherwise.
  all: subst o; lists_app; intros H Hskip; split_or H; try discriminate H.
  all: destruct (Fskip _ H Hskip) as [-> ->]; split; reflexivity.
Qed.

Lemma rebase_needs_upstream_and_lag_witness :
  count isRebase (log (syncVault Sample.noUpstream Sample.plugin)) = 0%nat
  /\ count isRebaseAbort (log (syncVault Sample.noUpstream Sample.plugin)) = 0%nat.
Proof.
  apply (rebase_needs_upstream_and_lag Sample.noUpstream Sample.plugin
           Sample.localBranch); [by_run | reflexivity].
Defined.

(** A rebase that fails without a conflict is not aborted: the run makes no
    further git call, tells the user that the rebase failed and hands the
    rebase's own error to the top-level handler. *)
Theorem failed_rebase_is_not_aborted env s u e :
  let r := syncVault env s in
  In (EGit (Rebase u) (Rejected e)) (log r) ->
  messageIncludes "CONFLICT" e = false ->
  In (caught e) (log r)
  /\ (forall e', In (caught e') (log r) -> e' = e)
  /\ count isRebaseAbort (log r) = 0%nat
  /\ forallb beforeCommit (gitOps (log r)) = true
  /\ In (ENotice Notification.RebaseFailed None) (log r)
  /\ isSyncing (final r) = false.
Proof.
  intros r. subst r. destruct_state s.
  remember (syncVault _ _) as o eqn:E.
  unfold syncVault in E. exec_in E tail_try_rebase_otherwise.
  all: subst o; lists_app; intros H Hconf; split_or H; try discriminate H.
  all: destruct (Ffail _ _ H Hconf) as (Hc & Ha & Hops & Hn); try discriminate Hc.
  all: injection Hc as Hc; subst; settle_eqns.
  all: lists_app; simpl_state; unfold caught; rewrite Ha, Hops.
  all: split; [cbn [In]; in_hyps|];
    split; [|repeat split; try reflexivity; cbn [In]; in_hyps].
  all: intros e' He'; rewrite ?in_app_iff in He'; cbn [In] in He';
    split_or He'; try discriminate He';
    try (apply (forallb_In _ _ _ G) in He'; discriminate He').
  all: injection He' as <-; reflexivity.
Qed.

Lemma failed_rebase_is_not_aborted_witness :
  In (caught Sample.offline) (log (syncVault Sample.rebaseFails Sample.plugin))
  /\ count isRebaseAbort (log (syncVault Sample.rebaseFails Sample.plugin)) = 0%nat.
Proof.
  assert (H : In (EGit (Rebase "origin/main") (Rejected Sample.offline))
                 (log (syncVault Sample.rebaseFails Sample.plugin))) by by_run.
  destruct (failed_rebase_is_not_aborted Sample.rebaseFails Sample.plugin
              "origin/main" Sample.offline H eq_refl) as (Hc & _ & Ha & _).
  split; [exact Hc | exact Ha].
Defined.

(** When the rebase conflicts and the abort fails as well, the abort's error
    is logged and goes no further: the user is told that the rebase could
    not be aborted, the run makes no further git call, and the one error the
    top-level handler sees is the rebase conflict. *)
Theorem failed_abort_is_swallowed env s e :
  let r := syncVault env s in
  In (EGit RebaseAbort (Rejected e)) (log r) ->
  In (caught rebaseConflict) (log r)
  /\ (forall e', In (caught e') (log r) -> e' = rebaseConflict)
  /\ In (EConsole Error Diagnostic.CouldNotAbortRebase (Some e)) (log r)
  /\ In (ENotice Notification.RebaseAbortFailed None) (log r)
  /\ forallb beforeCommit (gitOps (log r)) = true
  /\ lastStatus (log r) = Some "Conflict!"
  /\ completion r = Normal tt.
Proof.
  intros r. subst r. destruct_state s.
  remember (syncVault _ _) as o eqn:E.
  unfold syncVault in E. exec_in E tail_try_rebase_otherwise.
  all: subst o; lists_app; intros H; split_or H; try discriminate H.
  all: destruct (Fabort _ H) as (Hc & Hops & Hn & Hlog); try discriminate Hc.
  all: unfold rebaseConflict, new_Error in *; injection Hc as Hc; subst; settle_eqns.
  all: lists_app; simpl_state; unfold caught; rewrite ?Hops.
  all: split; [cbn [In]; in_hyps|];
    split; [|repeat split; try reflexivity; cbn [In]; in_hyps].
  all: intros e' He'; rewrite ?in_app_iff in He'; cbn [In] in He';
    split_or He'; try discriminate He';
    try (apply (forallb_In _ _ _ G) in He'; discriminate He').
  all: injection He' as <-; reflexivity.
Qed.

Lemma failed_abort_is_swallowed_witness :
  In (caught rebaseConflict) (log (syncVault Sample.abortFails Sample.plugin))
  /\ lastStatus (log (syncVault Sample.abortFails Sample.plugin))
     = Some "Conflict!".
Proof.
  assert (H : In (EGit RebaseAbort (Rejected Sample.diskFull))
                 (log (syncVault Sample.abortFails Sample.plugin))) by by_run.
  destruct (failed_abort_is_swallowed Sample.abortFails Sample.plugin
              Sample.diskFull H) as (Hc & _ & _ & _ & _ & Hs & _).
  split; [exact Hc | exact Hs].
Defined.


(** ** A git call that fails *)

Lemma commit_rejected env cb s op e :
  let o := syncVault_commit env cb s in
  isPlainCall op = true ->
  In (EGit op (Rejected e)) (log o) ->
  completion o = Throw e
  /\ endsAt op (gitOps (log o)) = true
  /\ stashed (final o) = stashed s
  /\ (forall x, In (EGit StashPop x) (log o) -> stashed s = true).
Proof.
  intros o. subst o. destruct_state s.
  remember (syncVault_commit _ _ _) as o eqn:E.
  unfold syncVault_commit in E. exec_in E no_special.
  all: subst o; lists; intros Hop H; split_or H; try discriminate H.
  all: injection H as <- <-; try discriminate Hop.
  all: simpl_state; split; [reflexivity|]; split; [reflexivity|]; split; [reflexivity|].
  all: intros x Hx; split_or Hx; try discriminate Hx; reflexivity.
Qed.

Lemma commit_event_rank op r :
  commit_event (EGit op r) = true -> (7 <= rank op)%nat.
Proof. destruct op as [[]| | | | | | | |]; cbn; intros H; try discriminate H; lia. Qed.

Lemma try_rejected env s op e :
  let o := syncVault_try env s in
  isPlainCall op = true ->
  In (EGit op (Rejected e)) (log o) ->
  completion o = Throw e
  /\ endsAt op (gitOps (log o)) = true
  /\ (forall x, In (EGit StashPop x) (log o) -> stashed (final o) = true).
Proof.
  intros o. subst o. destruct_state s.
  remember (syncVault_try _ _) as o eqn:E.
  unfold syncVault_try in E.
  exec_in E ltac:(fun x =>
    lazymatch x with
    | syncVault_commit ?env ?cb ?s =>
        let F := fresh "F" in
        let G := fresh "G" in
        pose proof (commit_rejected env cb s op e) as F;
        pose proof (commit_footprint env cb s) as G;
        destruct_outcome x; simpl_in F; simpl_in G
    end).
  all: subst o; lists; intros Hop H; split_or H; try discriminate H.
  all: try (lazymatch type of H with In _ _ => fail | _ => idtac end;
            injection H as <- <-;
            first [ discriminate Hop
                  | split; [reflexivity|]; split; [reflexivity|];
                    intros x Hx; split_or Hx; discriminate Hx ]).
  all: pose proof (commit_event_rank _ _ (forallb_In _ _ _ G H)) as Hr.
  all: destruct (F Hop H) as (Hc & Hend & Hst & Hpop).
  all: split; [exact Hc|]; split.
  all: try (unfold endsAt in *; cbn [forallb rank]; rewrite Hend;
            repeat (rewrite (proj2 (Nat.leb_le _ _)) by lia); reflexivity).
  all: try (intros x Hx; split_or Hx; try discriminate Hx;
             first [ exact Hst | discriminate (Hpop x Hx)
                   | exact (eq_trans Hst (Hpop x Hx)) ]).
Qed.


Ltac tail_try_rejected op e x :=
  lazymatch x with
  | syncVault_try ?env ?s =>
      let F := fresh "F" in
      let G := fresh "G" in
      pose proof (try_rejected env s op e) as F;
      pose proof (try_footprint env s) as G;
      destruct_outcome x; simpl_in F; simpl_in G
  end.

(** A status, fetch, add, commit or push call that is rejected ends the
    run's git calls: no later call is made, and the rejection itself, and
    nothing else, is handed to the top-level handler. *)
Theorem rejected_call_reaches_handler env s op e :
  let r := syncVault env s in
  isPlainCall op = true ->
  In (EGit op (Rejected e)) (log r) ->
  In (caught e) (log r)
  /\ (forall e', In (caught e') (log r) -> e' = e)
  /\ endsAt op (gitOps (log r)) = true
  /\ isSyncing (final r) = false.
Proof.
  intros r. subst r. destruct_state s.
  remember (syncVault _ _) as o eqn:E.
  unfold syncVault in E. exec_in E ltac:(tail_try_rejected op e).
  all: subst o; lists_app; intros Hop H; split_or H; try discriminate H.
  all: destruct (F Hop H) as (Hc & Hend & _); try discriminate Hc.
  all: injection Hc as Hc; subst; settle_eqns.
  all: lists_app; simpl_state; unfold caught; rewrite ?gitOps_app; cbn [gitOps app];
    rewrite ?app_nil_r.
  all: split; [cbn [In]; in_hyps|]; split; [|split; [exact Hend|reflexivity]].
  all: intros e' He'; rewrite ?in_app_iff in He'; cbn [In] in He';
    split_or He'; try discriminate He';
    try (apply (forallb_In _ _ _ G) in He'; discriminate He').
  all: injection He' as <-; reflexivity.
Qed.

Lemma rejected_call_reaches_handler_witness :
  In (caught Sample.offline) (log (syncVault Sample.fetchFails Sample.plugin))
  /\ endsAt Fetch (gitOps (log (syncVault Sample.fetchFails Sample.plugin))) = true.
Proof.
  assert (H : In (EGit Fetch (Rejected Sample.offline))
                 (log (syncVault Sample.fetchFails Sample.plugin))) by by_run.
  destruct (rejected_call_reaches_handler Sample.fetchFails Sample.plugin
              Fetch Sample.offline eq_refl H) as (Hc & _ & He & _).
  split; [exact Hc | exact He].
Defined.

(** The [stashed] flag is not lowered when the stash has been popped.  When
    a call after a successful pop is rejected (add, status, commit or push),
    the user is still warned that the local changes were stashed and may
    have to be popped by hand, unless the error's message is one of the two
    the [catch] block exempts. *)
Theorem failure_after_pop_warns_of_stash env s op e m :
  let r := syncVault env s in
  In (EGit StashPop (Resolved VVoid)) (log r) ->
  isPlainCall op = true ->
  In (EGit op (Rejected e)) (log r) ->
  err_message e = Some m ->
  Js.includes "Conflict applying stashed changes" m = false ->
  Js.includes "Merge conflict during rebase" m = false ->
  In (ENotice Notification.StashedRecoverManually None) (log r)
  /\ stashed (final r) = true.
Proof.
  intros r. subst r. destruct_state s.
  remember (syncVault _ _) as o eqn:E.
  unfold syncVault in E. exec_in E ltac:(tail_try_rejected op e).
  all: subst o; lists_app; intros Hp Hop H Hm HA HB; split_or H; try discriminate H.
  all: destruct (F Hop H) as (Hc & _ & Hst); try discriminate Hc.
  all: injection Hc as Hc; subst; settle_eqns.
  all: rewrite ?in_app_iff in Hp; cbn [In] in Hp; split_or Hp; try discriminate Hp.
  all: specialize (Hst _ Hp); try discriminate Hst.
  all: try (rewrite HA, HB in *; discriminate).
  all: split; [cbn [In]; in_hyps | reflexivity].
Qed.

Lemma failure_after_pop_warns_of_stash_witness :
  In (ENotice Notification.StashedRecoverManually None)
     (log (syncVault Sample.pushFailsAfterPop Sample.plugin))
  /\ stashed (final (syncVault Sample.pushFailsAfterPop Sample.plugin)) = true.
Proof.
  apply (failure_after_pop_warns_of_stash Sample.pushFailsAfterPop Sample.plugin
           Push Sample.offline "fatal: Could not read from remote repository.");
    first [reflexivity | by_run].
Defined.


(** ** The status bar *)

Lemma commit_status_bar env cb s :
  let o := syncVault_commit env cb s in
  statusBarItemEl (final o) = shown (lastStatus (log o)) (statusBarItemEl s).
Proof.
  intros o. subst o. destruct_state s.
  remember (syncVault_commit _ _ _) as o eqn:E.
  unfold syncVault_commit in E. exec_in E no_special.
  all: subst o; reflexivity.
Qed.

Ltac tail_commit_status x := tail_commit commit_status_bar x.

Lemma try_status_bar env s :
  let o := syncVault_try env s in
  statusBarItemEl (final o) = shown (lastStatus (log o)) (statusBarItemEl s).
Proof.
  intros o. subst o. destruct_state s.
  remember (syncVault_try _ _) as o eqn:E.
  unfold syncVault_try in E. exec_in E tail_commit_status.
  all: subst o; lists; try reflexivity.
  all: exact F.
Qed.

Ltac tail_try_status x := tail_try try_status_bar x.

(** The status bar item shows what the run set last: with an item, the text
    "Git Sync: " followed by the last status of the run, or what it showed
    before when the run set none; without an item, a run creates none. *)
Theorem status_bar_shows_last_status env s :
  let r := syncVault env s in
  statusBarItemEl (final r) = shown (lastStatus (log r)) (statusBarItemEl s).
Proof.
  intros r. subst r. destruct_state s.
  remember (syncVault _ _) as o eqn:E.
  unfold syncVault in E. exec_in E tail_try_status.
  all: subst o; lists_app; simpl_state; try reflexivity.
  all: try rewrite F; unfold shown; destruct el;
    repeat match goal with
           | |- context [lastStatus (map snd ?x)] => destruct (lastStatus (map snd x))
           end; reflexivity.
Qed.
